(** * txdav.dps.json: the expression <-> JSON codec

    A shallow embedding of [txdav/dps/json.py] (Python 2): the encoders
    [expressionAsJSON] / [expressionAsJSONText], the decoders
    [expressionFromJSON] / [expressionFromJSONText] with their per-node
    helpers, the flag-name parser [matchFlagsFromJSON], and [to_json_text].

    Modelling conventions.
    - A Python text string is a [string]; each [ascii] stands for one code
      point below 256. The strings of a JSON value are [unicode] objects,
      as [json.loads] returns them; the literals of the module are byte
      strings.
    - A JSON value is a [JSON]; a [dict] is an association list whose first
      binding of a key is the dict's value for it, and whose order stands
      for the dict's iteration order (which no statement below depends on).
      Floating point numbers are left out of [JSON].
    - A raised exception is a [Raise e]; [e] records the exception class
      and the data its message is built from. Where a message is built by
      [str.format] from a JSON value, Python 2's implicit ASCII encoding of
      a [unicode] argument is modelled ([format_into_str]), since it can
      raise in place of the exception being built.
    - The constants of [twext.who.expression] and [twisted.python.constants]
      are not part of this module; they are taken through [Schema]. *)

From Stdlib Require Import String Ascii List ZArith Bool Arith Lia.
From Stdlib Require Import Numbers.DecimalString Sorting.Permutation.
Import ListNotations.
Local Open Scope list_scope.
Local Open Scope string_scope.

Set Implicit Arguments.
#[local] Set Warnings "-register-all".

(** ** JSON values *)

Inductive JSON : Type :=
| JNull
| JBool (b : bool)
| JInt (n : Z)
| JString (s : string)
| JList (l : list JSON)
| JDict (d : list (string * JSON)).

(** ** Exceptions and the result of a call *)

Inductive Exception : Type :=
| TypeError_must_be_dict
    (* TypeError("JSON expression must be a dict.") *)
| TypeError_unknown_expression (repr : string)
    (* TypeError("Unknown expression type: {!r}".format(expression)) *)
| TypeError_arguments (fname : string) (takes given : nat)
    (* TypeError: fname() takes exactly <takes> arguments (<given> given) *)
| TypeError_not_iterable
| TypeError_subscript
    (* TypeError: subscripting a value that is not a dict with a string *)
| TypeError_unhashable
| AttributeError (attribute : string)
| ValueError_must_have_key (what key : string)
    (* ValueError("JSON <what> must have '<key>' key.") *)
| ValueError_lookupByName (name : JSON)
    (* ValueError(name), raised by lookupByName *)
| NotImplementedError_unknown_type (json_type : JSON)
    (* NotImplementedError("Unknown expression type: {}".format(json_type)) *)
| UnicodeEncodeError (text : string).
    (* UnicodeEncodeError: 'ascii' codec can't encode character ... *)

Inductive result (A : Type) : Type :=
| Ok (a : A)
| Raise (e : Exception).

Arguments Ok {A} a.
Arguments Raise {A} e.

Definition bind {A B : Type} (r : result A) (k : A -> result B) : result B :=
  match r with
  | Ok a => k a
  | Raise e => Raise e
  end.

Notation "x <- r ;; k" := (bind r (fun x => k))
  (at level 61, r at next level, right associativity).

(** [tuple(f(e) for e in l)] and [[f(e) for e in l]]: the elements are
    computed left to right and the first exception ends the loop. *)
Definition for_each {A B : Type} (f : A -> result B) : list A -> result (list B) :=
  fix go (l : list A) : result (list B) :=
    match l with
    | [] => Ok []
    | a :: l' => b <- f a ;; bs <- go l' ;; Ok (b :: bs)
    end.

Definition raised {A : Type} (r : result A) : bool :=
  match r with
  | Ok _ => false
  | Raise _ => true
  end.

(** ** Python string and dict primitives used by the module *)

Definition startswith (s prefix : string) : bool := String.prefix prefix s.

Definition endswith (s suffix : string) : bool :=
  (String.length suffix <=? String.length s)%nat
  && String.eqb (substring (String.length s - String.length suffix)
                           (String.length suffix) s) suffix.

(** [s[1:-1]] *)
Definition slice_1_m1 (s : string) : string :=
  substring 1 (String.length s - 2) s.

(** [s.split(sep)] for a one-character separator. *)
Fixpoint split (sep : ascii) (s : string) : list string :=
  match s with
  | EmptyString => [EmptyString]
  | String c s' =>
      if Ascii.eqb c sep then EmptyString :: split sep s'
      else match split sep s' with
           | x :: xs => String c x :: xs
           | [] => [String c EmptyString]
           end
  end.

(** [d[key]] on a dict: [None] stands for KeyError(key). *)
Fixpoint getitem {V : Type} (d : list (string * V)) (key : string) : option V :=
  match d with
  | [] => None
  | (k, v) :: d' => if String.eqb k key then Some v else getitem d' key
  end.

(** [d.get(key, default)] *)
Definition get (d : list (string * JSON)) (key : string) (default : JSON) : JSON :=
  match getitem d key with
  | Some v => v
  | None => default
  end.

(** [json == "literal"]: a JSON value equals a string literal exactly when
    it is that string. *)
Definition eq_str (json : JSON) (literal : string) : bool :=
  match json with
  | JString s => String.eqb s literal
  | _ => false
  end.

(** ** The constants the module imports

    [Names] containers ([MatchType], [Operand], a service's [fieldName]) and
    the [Flags] container [MatchFlags] of twisted.python.constants: every
    constant has a [name], a container resolves a name with [lookupByName]
    ([None] stands for the ValueError it raises), flags combine with [|]. *)
Class Schema : Type := {
  FieldName : Type;
  FieldName_name : FieldName -> string;
  MatchType : Type;
  MatchType_name : MatchType -> string;
  MatchType_lookupByName : string -> option MatchType;
  MatchFlags : Type;
  MatchFlags_name : MatchFlags -> string;
  MatchFlags_lookupByName : string -> option MatchFlags;
  MatchFlags_none : MatchFlags;
  MatchFlags_or : MatchFlags -> MatchFlags -> MatchFlags;
  Operand : Type;
  Operand_name : Operand -> string;
  Operand_lookupByName : string -> option Operand
}.

(** [container.lookupByName(name)] for a name taken from JSON:
    [if name in cls._enumerants: return getattr(cls, name)],
    [raise ValueError(name)]; the membership test hashes [name]. *)
Definition lookupByName {C : Type} (lookup : string -> option C) (name : JSON)
  : result C :=
  match name with
  | JString s =>
      match lookup s with
      | Some c => Ok c
      | None => Raise (ValueError_lookupByName name)
      end
  | JList _ | JDict _ => Raise TypeError_unhashable
  | _ => Raise (ValueError_lookupByName name)
  end.

(** A directory service, as far as the decoders use it:
    [service.fieldName.lookupByName]. *)
Record Service `{Schema} : Type := {
  fieldName_lookupByName : string -> option FieldName
}.

(** ** Expressions *)

(** Modelled from the spec: the expression classes of [twext.who.expression]
    are imported by this module and not defined in it; section 3 of the
    specification gives their fields. [OtherObject] stands for any Python
    object that is an instance of none of the four classes ([repr] is its
    [repr()]). *)
Inductive Expression `{Schema} : Type :=
| MatchExpression (fieldName : FieldName) (fieldValue : string)
                  (matchType : MatchType) (flags : MatchFlags)
| ExistsExpression (fieldName : FieldName)
| BooleanExpression (fieldName : FieldName)
| CompoundExpression (expressions : list Expression) (operand : Operand)
| OtherObject (repr : string).

Section Encoder.
Context `{Schema}.

(** ** Encoding: expression -> JSON value *)

Definition matchExpressionAsJSON (fieldName : FieldName) (fieldValue : string)
  (matchType : MatchType) (flags : MatchFlags) : JSON :=
  JDict [ ("type", JString "MatchExpression");
          ("field", JString (FieldName_name fieldName));
          ("value", JString fieldValue);
          ("match", JString (MatchType_name matchType));
          ("flags", JString (MatchFlags_name flags)) ].

Definition existsExpressionAsJSON (fieldName : FieldName) : JSON :=
  JDict [ ("type", JString "ExistsExpression");
          ("field", JString (FieldName_name fieldName)) ].

Definition booleanExpressionAsJSON (fieldName : FieldName) : JSON :=
  JDict [ ("type", JString "BooleanExpression");
          ("field", JString (FieldName_name fieldName)) ].

(** [compoundExpressionAsJSON], with the recursive call to
    [expressionAsJSON] passed in. *)
Definition compoundExpressionAsJSON_with
  (expressionAsJSON : Expression -> result JSON)
  (expressions : list Expression) (operand : Operand) : result JSON :=
  expressions_json <- for_each expressionAsJSON expressions ;;
  Ok (JDict [ ("type", JString "CompoundExpression");
              ("operand", JString (Operand_name operand));
              ("expressions", JList expressions_json) ]).

Fixpoint expressionAsJSON (expression : Expression) : result JSON :=
  match expression with
  | CompoundExpression expressions operand =>
      compoundExpressionAsJSON_with expressionAsJSON expressions operand
  | MatchExpression fieldName fieldValue matchType flags =>
      Ok (matchExpressionAsJSON fieldName fieldValue matchType flags)
  | ExistsExpression fieldName =>
      Ok (existsExpressionAsJSON fieldName)
  | BooleanExpression fieldName =>
      Ok (booleanExpressionAsJSON fieldName)
  | OtherObject repr =>
      Raise (TypeError_unknown_expression repr)
  end.

Definition compoundExpressionAsJSON :
  list Expression -> Operand -> result JSON :=
  compoundExpressionAsJSON_with expressionAsJSON.

End Encoder.

(** ** Python builtins on JSON values: [repr], [unicode], iteration *)

Definition hex_digit (n : nat) : ascii :=
  match n with
  | 0 => "0" | 1 => "1" | 2 => "2" | 3 => "3" | 4 => "4" | 5 => "5"
  | 6 => "6" | 7 => "7" | 8 => "8" | 9 => "9" | 10 => "a" | 11 => "b"
  | 12 => "c" | 13 => "d" | 14 => "e" | _ => "f"
  end%char.

(** The two lowercase hexadecimal digits of a code point below 256. *)
Definition hex2 (c : ascii) : string :=
  let n := nat_of_ascii c in
  String (hex_digit (n / 16)) (String (hex_digit (n mod 16)) EmptyString).

Definition dquote : ascii := "034"%char.
Definition squote : ascii := "039"%char.
Definition backslash : ascii := "092"%char.

(** [str(n)] of an integer. *)
Definition str_int (n : Z) : string := NilZero.string_of_int (Z.to_int n).

(** [sys.maxint] of a 64-bit CPython 2: larger integers are [long]s, whose
    [repr] ends in [L]. *)
Definition sys_maxint : Z := 9223372036854775807.

Definition repr_int (n : Z) : string :=
  if ((- sys_maxint - 1 <=? n) && (n <=? sys_maxint))%Z then str_int n
  else str_int n ++ "L".

Fixpoint contains_char (c : ascii) (s : string) : bool :=
  match s with
  | EmptyString => false
  | String c' s' => Ascii.eqb c' c || contains_char c s'
  end.

(** [repr(u)] of a unicode string: [u'...'], or [u"..."] when the text
    has a single quote and no double quote. *)
Definition repr_char (quote c : ascii) : string :=
  if Ascii.eqb c quote || Ascii.eqb c backslash
  then String backslash (String c EmptyString)
  else if Ascii.eqb c "009" then String backslash "t"
  else if Ascii.eqb c "010" then String backslash "n"
  else if Ascii.eqb c "013" then String backslash "r"
  else if (nat_of_ascii c <? 32)%nat || (127 <=? nat_of_ascii c)%nat
  then String backslash (String "x" (hex2 c))
  else String c EmptyString.

Definition repr_unicode (s : string) : string :=
  let quote :=
    if contains_char squote s && negb (contains_char dquote s)
    then dquote else squote in
  String "u" (String quote
    (String.concat EmptyString (map (repr_char quote) (list_ascii_of_string s))
     ++ String quote EmptyString)).

Fixpoint repr (json : JSON) : string :=
  match json with
  | JNull => "None"
  | JBool true => "True"
  | JBool false => "False"
  | JInt n => repr_int n
  | JString s => repr_unicode s
  | JList l => "[" ++ String.concat ", " (map repr l) ++ "]"
  | JDict d =>
      "{" ++ String.concat ", "
               (map (fun kv => repr_unicode (fst kv) ++ ": " ++ repr (snd kv)) d)
          ++ "}"
  end.

(** [unicode(json)]: a text string is returned as it is, any other value
    through its [str()]. *)
Definition unicode (json : JSON) : string :=
  match json with
  | JString s => s
  | JInt n => str_int n
  | other => repr other
  end.

(** The items of [for e in json]: a list's elements, a dict's keys, a
    string's characters; other values are not iterable. *)
Definition iterate (json : JSON) : result (list JSON) :=
  match json with
  | JList l => Ok l
  | JDict d => Ok (map (fun kv => JString (fst kv)) d)
  | JString s =>
      Ok (map (fun c => JString (String c EmptyString)) (list_ascii_of_string s))
  | _ => Raise TypeError_not_iterable
  end.

(** ASCII text: every code point is below 128. *)
Fixpoint is_ascii (s : string) : bool :=
  match s with
  | EmptyString => true
  | String c s' => (nat_of_ascii c <? 128)%nat && is_ascii s'
  end.

(** ["...{}".format(json)] for a byte-string template: a [unicode] argument
    is encoded as ASCII, which raises UnicodeEncodeError on a character
    outside ASCII; any other value goes in through its [str()], which is
    ASCII. The value is returned when the formatting succeeds. *)
Definition format_into_str (json : JSON) : result JSON :=
  match json with
  | JString s => if is_ascii s then Ok json else Raise (UnicodeEncodeError s)
  | _ => Ok json
  end.

(** [raise NotImplementedError("Unknown expression type: {}".format(
    json_type))]: the message is built first. *)
Definition raise_unknown_type {A : Type} (json_type : JSON) : result A :=
  formatted <- format_into_str json_type ;;
  Raise (NotImplementedError_unknown_type formatted).

(** ** Calling a function of two required parameters

    Python binds the positional arguments of a call to the callee's
    parameters before its body runs; [f(x)] for [def f(a, b)] raises
    TypeError and runs nothing of [f]. *)
Inductive Positional (A B : Type) : Type :=
| one_argument (x : JSON)
| two_arguments (a : A) (b : B).

Arguments one_argument {A B} x.
Arguments two_arguments {A B} a b.

Definition call {A B R : Type} (fname : string) (f : A -> B -> result R)
  (args : Positional A B) : result R :=
  match args with
  | two_arguments a b => f a b
  | one_argument _ => Raise (TypeError_arguments fname 2 1)
  end.

Section Decoder.
Context `{Schema}.

(** ** Decoding: JSON value -> expression *)

Definition matchTypeFromJSON (json : JSON) : result MatchType :=
  lookupByName MatchType_lookupByName json.

(** The loop [for flag in names: flags |= MatchFlags.lookupByName(flag)]. *)
Fixpoint or_each (flags : MatchFlags) (names : list string) : result MatchFlags :=
  match names with
  | [] => Ok flags
  | flag :: names' =>
      f <- lookupByName MatchFlags_lookupByName (JString flag) ;;
      or_each (MatchFlags_or flags f) names'
  end.

Definition matchFlagsFromJSON (json : JSON) : result MatchFlags :=
  if eq_str json "{}" then Ok MatchFlags_none
  else
    match json with
    | JString s =>
        if startswith s "{" && endswith s "}"
        then or_each MatchFlags_none (split "," (slice_1_m1 s))
        else lookupByName MatchFlags_lookupByName json
    | _ => Raise (AttributeError "startswith")
    end.

(** [try: json[key] except KeyError as e: raise ValueError("JSON <what>
    must have {!r} key.".format(e[0]))]; a TypeError is not caught. *)
Definition required (what : string) (json : JSON) (key : string) : result JSON :=
  match json with
  | JDict d =>
      match getitem d key with
      | Some v => Ok v
      | None => Raise (ValueError_must_have_key what key)
      end
  | _ => Raise TypeError_subscript
  end.

(** [json.get(key, default)], reached only once [json[...]] succeeded. *)
Definition get_default (json : JSON) (key : string) (default : JSON) : JSON :=
  match json with
  | JDict d => get d key default
  | _ => default
  end.

Definition matchExpressionFromJSON (service : Service) (json : JSON)
  : result Expression :=
  jsonField <- required "match expression" json "field" ;;
  jsonValue <- required "match expression" json "value" ;;
  fieldName <- lookupByName (fieldName_lookupByName service) jsonField ;;
  let fieldValue := unicode jsonValue in
  matchType <- matchTypeFromJSON (get_default json "match" (JString "equals")) ;;
  flags <- matchFlagsFromJSON (get_default json "flags" (JString "{}")) ;;
  Ok (MatchExpression fieldName fieldValue matchType flags).

Definition existsExpressionFromJSON (service : Service) (json : JSON)
  : result Expression :=
  jsonField <- required "match expression" json "field" ;;
  fieldName <- lookupByName (fieldName_lookupByName service) jsonField ;;
  Ok (ExistsExpression fieldName).

Definition booleanExpressionFromJSON (service : Service) (json : JSON)
  : result Expression :=
  jsonField <- required "match expression" json "field" ;;
  fieldName <- lookupByName (fieldName_lookupByName service) jsonField ;;
  Ok (BooleanExpression fieldName).

(** The body of [compoundExpressionFromJSON] once both subscripts of its
    [try] block are evaluated: [expressions] is what decoding the items of
    [json["expressions"]] gives ([None]: the key is missing), [operand_json]
    is [json["operand"]]. *)
Definition compound_of (expressions : option (result (list Expression)))
  (operand_json : option JSON) : result Expression :=
  match expressions with
  | None => Raise (ValueError_must_have_key "compound expression" "expressions")
  | Some decoded =>
      match operand_json with
      | None => Raise (ValueError_must_have_key "compound expression" "operand")
      | Some operand_json =>
          expressions <- decoded ;;
          operand <- lookupByName Operand_lookupByName operand_json ;;
          Ok (CompoundExpression expressions operand)
      end
  end.

(** The dispatch of [expressionFromJSON] on [json["type"]], given the
    outcome of the compound branch. *)
Definition dispatch (compound : result Expression) (json : JSON)
  : result Expression :=
  match json with
  | JDict d =>
      match getitem d "type" with
      | None => Raise (ValueError_must_have_key "expression" "type")
      | Some json_type =>
          if eq_str json_type "CompoundExpression" then compound
          else if eq_str json_type "MatchExpression" then
            call "matchExpressionFromJSON" matchExpressionFromJSON
                 (one_argument json)
          else if eq_str json_type "ExistsExpression" then
            call "existsExpressionFromJSON" existsExpressionFromJSON
                 (one_argument json)
          else if eq_str json_type "BooleanExpression" then
            call "booleanExpressionFromJSON" booleanExpressionFromJSON
                 (one_argument json)
          else raise_unknown_type json_type
      end
  | _ => Raise TypeError_must_be_dict
  end.

(** [expressionFromJSON], by structural recursion: the items of every value
    of the dict are decoded in place, so that the recursive calls are on
    parts of [json]. The items of a dict or of a string are strings, on
    which [expressionFromJSON] raises its TypeError.
    [expressionFromJSON_eq] below gives the function in the source's shape. *)
Fixpoint expressionFromJSON (json : JSON) : result Expression :=
  match json with
  | JDict d =>
      let each (v : JSON) : result (list Expression) :=
        match v with
        | JList l => for_each expressionFromJSON l
        | other =>
            items <- iterate other ;;
            for_each (fun _ => Raise TypeError_must_be_dict) items
        end in
      dispatch
        (compound_of
           (getitem (map (fun kv => (fst kv, each (snd kv))) d) "expressions")
           (getitem d "operand"))
        json
  | _ => Raise TypeError_must_be_dict
  end.

(** [tuple(expressionFromJSON(e) for e in expressions_json)] *)
Definition decode_each (expressions_json : JSON) : result (list Expression) :=
  items <- iterate expressions_json ;;
  for_each expressionFromJSON items.

Definition compoundExpressionFromJSON (json : JSON) : result Expression :=
  expressions_json <- required "compound expression" json "expressions" ;;
  operand_json <- required "compound expression" json "operand" ;;
  expressions <- decode_each expressions_json ;;
  operand <- lookupByName Operand_lookupByName operand_json ;;
  Ok (CompoundExpression expressions operand).

(** [expressionFromJSON] as the source writes it. *)
Definition expressionFromJSON_source (json : JSON) : result Expression :=
  dispatch (compoundExpressionFromJSON json) json.

(** [expressionFromJSONText]; [from_json_text] is [json.loads]. *)
Definition expressionFromJSONText (from_json_text : string -> result JSON)
  (jsonText : string) : result Expression :=
  json <- from_json_text jsonText ;;
  expressionFromJSON json.

End Decoder.

(** ** JSON text

    [json.dumps(obj, separators=(item_separator, key_separator))] with the
    default [ensure_ascii=True]: the output is ASCII, so the final
    [.decode("UTF-8")] of [to_json_text] changes no character. *)

(** [encode_basestring_ascii]: every character outside [' '..'~'], the
    double quote and the backslash are escaped. *)
Definition escape_char (c : ascii) : string :=
  if Ascii.eqb c dquote then String backslash (String dquote EmptyString)
  else if Ascii.eqb c backslash then String backslash (String backslash EmptyString)
  else if Ascii.eqb c "008" then String backslash "b"
  else if Ascii.eqb c "012" then String backslash "f"
  else if Ascii.eqb c "010" then String backslash "n"
  else if Ascii.eqb c "013" then String backslash "r"
  else if Ascii.eqb c "009" then String backslash "t"
  else if (nat_of_ascii c <? 32)%nat || (126 <? nat_of_ascii c)%nat
  then String backslash ("u00" ++ hex2 c)
  else String c EmptyString.

Fixpoint escape (s : string) : string :=
  match s with
  | EmptyString => EmptyString
  | String c s' => escape_char c ++ escape s'
  end.

Definition encode_basestring_ascii (s : string) : string :=
  String dquote (escape s ++ String dquote EmptyString).

Fixpoint dumps (item_separator key_separator : string) (obj : JSON) : string :=
  match obj with
  | JNull => "null"
  | JBool true => "true"
  | JBool false => "false"
  | JInt n => str_int n
  | JString s => encode_basestring_ascii s
  | JList l =>
      "[" ++ String.concat item_separator
               (map (dumps item_separator key_separator) l) ++ "]"
  | JDict d =>
      "{" ++ String.concat item_separator
               (map (fun kv => encode_basestring_ascii (fst kv) ++ key_separator
                               ++ dumps item_separator key_separator (snd kv)) d)
          ++ "}"
  end.

Definition to_json_text (obj : JSON) : string := dumps "," ":" obj.

Definition expressionAsJSONText `{Schema} (expression : Expression)
  : result string :=
  json <- expressionAsJSON expression ;;
  Ok (to_json_text json).

(** ** Reading a JSON text for its separators

    A scan of a JSON text that tells the structural characters from the
    characters of string literals, and remembers whether the last structural
    character was a space or a separator ([,] or [:]). [Padded] is entered,
    and never left, when a space stands next to a separator. *)
Inductive Previous : Type := WasSpace | WasSeparator | WasOther.

Inductive Scan : Type :=
| Outside (previous : Previous)
| Inside
| Escaped
| Padded.

Definition scan_step (st : Scan) (c : ascii) : Scan :=
  match st with
  | Outside previous =>
      if Ascii.eqb c dquote then Inside
      else if Ascii.eqb c " " then
        match previous with WasSeparator => Padded | _ => Outside WasSpace end
      else if Ascii.eqb c "," || Ascii.eqb c ":" then
        match previous with WasSpace => Padded | _ => Outside WasSeparator end
      else Outside WasOther
  | Inside =>
      if Ascii.eqb c backslash then Escaped
      else if Ascii.eqb c dquote then Outside WasOther
      else Inside
  | Escaped => Inside
  | Padded => Padded
  end.

Fixpoint scan (st : Scan) (text : string) : Scan :=
  match text with
  | EmptyString => st
  | String c text' => scan (scan_step st c) text'
  end.

(** No space stands next to a [,] or [:] separator of the text. *)
Definition compact (text : string) : bool :=
  match scan (Outside WasOther) text with
  | Padded => false
  | _ => true
  end.

(** A text is a token when the scan, wherever it stands outside a literal,
    is carried over the text to the state that follows a character which is
    neither a space nor a separator. *)
Definition token (text : string) : Prop :=
  forall previous rest,
    scan (Outside previous) (text ++ rest) = scan (Outside WasOther) rest.

(** The characters of a numeral: digits and the minus sign. *)
Definition numeral_char (c : ascii) : Prop :=
  forall previous, scan_step (Outside previous) c = Outside WasOther.

(** ** Well-formed expression trees *)

(** Built from the four expression classes only. *)
Fixpoint known `{Schema} (expression : Expression) : bool :=
  match expression with
  | CompoundExpression expressions _ => forallb known expressions
  | OtherObject _ => false
  | _ => true
  end.

(** Built from the four classes, every compound with at least one child. *)
Fixpoint well_formed `{Schema} (expression : Expression) : bool :=
  match expression with
  | CompoundExpression expressions _ =>
      negb (Nat.eqb (List.length expressions) 0) && forallb well_formed expressions
  | OtherObject _ => false
  | _ => true
  end.

(** The simple predicates of a tree: match, exists and boolean nodes. *)
Fixpoint leaves `{Schema} (expression : Expression) : nat :=
  match expression with
  | CompoundExpression expressions _ => list_sum (map leaves expressions)
  | OtherObject _ => 0
  | _ => 1
  end.

(** ** The flags grammar, in the specification's words

    A composite [{A,B,...}] stands for the OR of the flags its names look
    up, and fails on a name that does not resolve. *)
Section FlagsOfNames.
Context `{Schema}.

Definition unresolvable (name : string) : bool :=
  match MatchFlags_lookupByName name with
  | Some _ => false
  | None => true
  end.

(** The flags of the names that resolve, in their order. *)
Definition resolved (names : list string) : list MatchFlags :=
  flat_map (fun name => match MatchFlags_lookupByName name with
                        | Some f => [f]
                        | None => []
                        end) names.

Definition flags_of_names (names : list string) : result MatchFlags :=
  match find unresolvable names with
  | Some name => Raise (ValueError_lookupByName (JString name))
  | None => Ok (fold_left MatchFlags_or (resolved names) MatchFlags_none)
  end.

End FlagsOfNames.

(** ** Further notions the properties are stated with *)

(** What a call returns, whatever it raises. *)
Definition outcome {A : Type} (r : result A) : option A :=
  match r with
  | Ok a => Some a
  | Raise _ => None
  end.

(** The printable ASCII characters, [' '] to ['~']. *)
Definition printable (c : ascii) : bool :=
  (32 <=? nat_of_ascii c)%nat && (nat_of_ascii c <=? 126)%nat.

Fixpoint all_printable (text : string) : bool :=
  match text with
  | EmptyString => true
  | String c text' => printable c && all_printable text'
  end.

Fixpoint distinct (keys : list string) : bool :=
  match keys with
  | [] => true
  | key :: keys' => negb (existsb (String.eqb key) keys') && distinct keys'
  end.

(** The JSON of a node of the wire format: a dict with distinct keys, whose
    type is one of the four class names, and whose values are strings or
    lists of such nodes. *)
Fixpoint node_json (json : JSON) : bool :=
  match json with
  | JDict d =>
      distinct (map fst d)
      && match getitem d "type" with
         | Some json_type =>
             eq_str json_type "CompoundExpression"
             || eq_str json_type "MatchExpression"
             || eq_str json_type "ExistsExpression"
             || eq_str json_type "BooleanExpression"
         | None => false
         end
      && forallb (fun kv => match snd kv with
                            | JString _ => true
                            | JList l => forallb node_json l
                            | _ => false
                            end) d
  | _ => false
  end.

(** Two JSON values with the same content: equal, up to the way their dicts
    list their bindings. The dicts of two such values have the same keys,
    and the same content under each key. *)
Inductive same_content : JSON -> JSON -> Prop :=
| same_null : same_content JNull JNull
| same_bool (b : bool) : same_content (JBool b) (JBool b)
| same_int (n : Z) : same_content (JInt n) (JInt n)
| same_string (s : string) : same_content (JString s) (JString s)
| same_list (l l' : list JSON) :
    Forall2 same_content l l' -> same_content (JList l) (JList l')
| same_dict (d d' : list (string * JSON)) :
    (forall key, getitem d key = None <-> getitem d' key = None) ->
    (forall key v v',
        getitem d key = Some v -> getitem d' key = Some v' -> same_content v v') ->
    same_content (JDict d) (JDict d').

(** ** A concrete schema *)

(** Modelled from the spec: a small directory with the kinds of constants
    the specification names (field names such as [uid] and [guid]; the match
    types equals, contains, starts-with and ends-with; a negation and a
    case-insensitivity flag; the operands [OR] and [AND]), on which the
    codec is run on concrete input. *)
Module Directory.

Inductive field : Type := uid | guid | shortNames.

Definition field_name (f : field) : string :=
  match f with
  | uid => "uid"
  | guid => "guid"
  | shortNames => "shortNames"
  end.

Definition field_lookup (name : string) : option field :=
  if String.eqb name "uid" then Some uid
  else if String.eqb name "guid" then Some guid
  else if String.eqb name "shortNames" then Some shortNames
  else None.

Inductive match_type : Type := equals | startsWith | endsWith | contains.

Definition match_type_name (m : match_type) : string :=
  match m with
  | equals => "equals"
  | startsWith => "startsWith"
  | endsWith => "endsWith"
  | contains => "contains"
  end.

Definition match_type_lookup (name : string) : option match_type :=
  if String.eqb name "equals" then Some equals
  else if String.eqb name "startsWith" then Some startsWith
  else if String.eqb name "endsWith" then Some endsWith
  else if String.eqb name "contains" then Some contains
  else None.

(** A flags value is the set of the flag constants it holds. *)
Record flags : Type := { NOT : bool; caseInsensitive : bool }.

Definition flags_none : flags := {| NOT := false; caseInsensitive := false |}.

Definition flags_or (a b : flags) : flags :=
  {| NOT := NOT a || NOT b;
     caseInsensitive := caseInsensitive a || caseInsensitive b |}.

Definition flags_name (f : flags) : string :=
  match NOT f, caseInsensitive f with
  | false, false => "{}"
  | true, false => "NOT"
  | false, true => "caseInsensitive"
  | true, true => "{NOT,caseInsensitive}"
  end.

Definition flags_lookup (name : string) : option flags :=
  if String.eqb name "NOT" then Some {| NOT := true; caseInsensitive := false |}
  else if String.eqb name "caseInsensitive"
  then Some {| NOT := false; caseInsensitive := true |}
  else None.

Inductive operand : Type := OR | AND.

Definition operand_name (o : operand) : string :=
  match o with
  | OR => "OR"
  | AND => "AND"
  end.

Definition operand_lookup (name : string) : option operand :=
  if String.eqb name "OR" then Some OR
  else if String.eqb name "AND" then Some AND
  else None.

#[export] Instance schema : Schema := {|
  FieldName := field;
  FieldName_name := field_name;
  MatchType := match_type;
  MatchType_name := match_type_name;
  MatchType_lookupByName := match_type_lookup;
  MatchFlags := flags;
  MatchFlags_name := flags_name;
  MatchFlags_lookupByName := flags_lookup;
  MatchFlags_none := flags_none;
  MatchFlags_or := flags_or;
  Operand := operand;
  Operand_name := operand_name;
  Operand_lookupByName := operand_lookup
|}.

Definition service : Service := {| fieldName_lookupByName := field_lookup |}.

Definition uid_exists : Expression := ExistsExpression uid.

Definition guid_exists : Expression := ExistsExpression guid.

(** [uid exists AND guid exists], the compound tree of the specification's
    round-trip test. *)
Definition uid_and_guid : Expression :=
  CompoundExpression [ uid_exists; guid_exists ] AND.

(** [shortNames contains "a, b: c"], case-insensitively negated. *)
Definition short_name_match : Expression :=
  MatchExpression shortNames "a, b: c" contains
    {| NOT := true; caseInsensitive := true |}.

End Directory.

(** Sample values over the concrete schema. *)
Module Samples.
Import Directory.

(** [OR] of an empty [AND]: a tree of compound expressions only. *)
Definition or_of_empty_and : Expression :=
  CompoundExpression [ CompoundExpression [] AND ] OR.

Definition empty_and_json : JSON :=
  JDict [ ("type", JString "CompoundExpression"); ("operand", JString "AND");
          ("expressions", JList []) ].

Definition or_of_empty_and_json : JSON :=
  JDict [ ("type", JString "CompoundExpression"); ("operand", JString "OR");
          ("expressions", JList [ empty_and_json ]) ].

(** The same dict as [or_of_empty_and_json], its items in another order,
    and with one more key. *)
Definition or_of_empty_and_items : list (string * JSON) :=
  [ ("type", JString "CompoundExpression"); ("operand", JString "OR");
    ("expressions", JList [ empty_and_json ]) ].

Definition or_of_empty_and_reordered : list (string * JSON) :=
  [ ("operand", JString "OR"); ("type", JString "CompoundExpression");
    ("expressions", JList [ empty_and_json ]) ].

Definition or_of_empty_and_commented : list (string * JSON) :=
  ("comment", JString "ignored") :: or_of_empty_and_reordered.

(** A compound whose second child is an exists node. *)
Definition second_child_fails : list (string * JSON) :=
  [ ("type", JString "CompoundExpression"); ("operand", JInt 0);
    ("expressions",
     JList [ empty_and_json; existsExpressionAsJSON uid; JNull ]) ].

(** A list with a number, strings with quotes, control and non-ASCII
    characters, null, a boolean, and a dict holding a [long]. *)
Definition mixed_list : JSON :=
  JList [ JInt 5; JString "it's"; JString "x"; JNull; JBool true;
          JString (String "010" (String "233" (String backslash
                     (String "127" (String "009" EmptyString)))));
          JDict [ ("k", JInt 9223372036854775808) ] ].

Definition match_items : list (string * JSON) :=
  [ ("type", JString "MatchExpression"); ("field", JString "uid");
    ("value", JString "x"); ("flags", JString "NOT") ].

Definition match_items_reordered : list (string * JSON) :=
  [ ("flags", JString "NOT"); ("value", JString "x");
    ("field", JString "uid"); ("type", JString "MatchExpression") ].

End Samples.

(** * Properties *)

(** ** Induction over nested values *)

Lemma JSON_nested_ind (P : JSON -> Prop) :
  P JNull ->
  (forall b, P (JBool b)) ->
  (forall n, P (JInt n)) ->
  (forall s, P (JString s)) ->
  (forall l, Forall P l -> P (JList l)) ->
  (forall d, Forall (fun kv => P (snd kv)) d -> P (JDict d)) ->
  forall json, P json.
Proof.
  intros Hnull Hbool Hint Hstr Hlist Hdict.
  fix IH 1.
  intros [ | b | n | s | l | d ].
  - exact Hnull.
  - apply Hbool.
  - apply Hint.
  - apply Hstr.
  - apply Hlist. induction l as [ | j l IHl ]; constructor; [ apply IH | exact IHl ].
  - apply Hdict. induction d as [ | [k v] d IHd ]; constructor;
      [ apply IH | exact IHd ].
Qed.

Lemma Expression_nested_ind `{Schema} (P : Expression -> Prop) :
  (forall f v m fl, P (MatchExpression f v m fl)) ->
  (forall f, P (ExistsExpression f)) ->
  (forall f, P (BooleanExpression f)) ->
  (forall es op, Forall P es -> P (CompoundExpression es op)) ->
  (forall r, P (OtherObject r)) ->
  forall e, P e.
Proof.
  intros Hm He Hb Hc Ho.
  fix IH 1.
  intros [ f v m fl | f | f | es op | r ].
  - apply Hm.
  - apply He.
  - apply Hb.
  - apply Hc. induction es as [ | e es IHes ]; constructor; [ apply IH | exact IHes ].
  - apply Ho.
Qed.

(** ** The decoder in the source's shape *)

Lemma getitem_map_values {V W : Type} (f : V -> W) (d : list (string * V)) key :
  getitem (map (fun kv => (fst kv, f (snd kv))) d) key
  = option_map f (getitem d key).
Proof.
  induction d as [ | [k v] d IHd ]; simpl; [ reflexivity | ].
  destruct (String.eqb k key); [ reflexivity | exact IHd ].
Qed.

Section DecoderShape.
Context `{Schema}.

Lemma expressionFromJSON_not_dict (json : JSON) :
  (forall d, json <> JDict d) ->
  expressionFromJSON json = Raise TypeError_must_be_dict.
Proof.
  intros Hnd. destruct json; try reflexivity. exfalso. eapply Hnd. reflexivity.
Qed.

(** Decoding the items of a dict or of a string stops at the first item,
    which is a string. *)
Lemma for_each_strings {A : Type} (f g : JSON -> result A) (items : list JSON) :
  Forall (fun j => exists s, j = JString s) items ->
  (forall s, f (JString s) = g (JString s)) ->
  (forall s, raised (g (JString s)) = true) ->
  for_each f items = for_each g items.
Proof.
  intros Hitems Hfg Hraise.
  destruct Hitems as [ | j items [s ->] _ ]; [ reflexivity | ].
  simpl. rewrite Hfg. specialize (Hraise s).
  destruct (g (JString s)); [ discriminate | reflexivity ].
Qed.

Lemma decode_each_eq (v : JSON) :
  match v with
  | JList l => for_each expressionFromJSON l
  | other =>
      items <- iterate other ;;
      for_each (fun _ => Raise TypeError_must_be_dict) items
  end = decode_each v.
Proof.
  unfold decode_each.
  destruct v as [ | b | n | s | l | d ]; try reflexivity; simpl.
  - apply for_each_strings.
    + apply Forall_forall. intros j Hj. apply in_map_iff in Hj.
      destruct Hj as [c [<- _]]. eexists. reflexivity.
    + reflexivity.
    + reflexivity.
  - apply for_each_strings.
    + apply Forall_forall. intros j Hj. apply in_map_iff in Hj.
      destruct Hj as [kv [<- _]]. eexists. reflexivity.
    + reflexivity.
    + reflexivity.
Qed.

(** The structural definition computes the function the source writes. *)
Lemma expressionFromJSON_eq (json : JSON) :
  expressionFromJSON json = expressionFromJSON_source json.
Proof.
  unfold expressionFromJSON_source.
  destruct json as [ | b | n | s | l | d ]; try reflexivity.
  cbn [expressionFromJSON]. f_equal.
  pose (each := fun v : JSON =>
          match v with
          | JList l => for_each expressionFromJSON l
          | other =>
              items <- iterate other ;;
              for_each (fun _ => Raise TypeError_must_be_dict) items
          end).
  change (compound_of
            (getitem (map (fun kv => (fst kv, each (snd kv))) d) "expressions")
            (getitem d "operand")
          = compoundExpressionFromJSON (JDict d)).
  rewrite getitem_map_values.
  unfold compoundExpressionFromJSON, required.
  destruct (getitem d "expressions") as [v | ]; simpl; [ | reflexivity ].
  destruct (getitem d "operand") as [o | ]; simpl; [ | reflexivity ].
  unfold each. rewrite decode_each_eq. reflexivity.
Qed.

End DecoderShape.

(** ** Loops *)

Lemma for_each_Forall2 {A B : Type} (f : A -> result B) (l : list A) (bs : list B) :
  for_each f l = Ok bs <-> Forall2 (fun a b => f a = Ok b) l bs.
Proof.
  revert bs. induction l as [ | a l IHl ]; intros bs; simpl.
  - split.
    + intros Heq. injection Heq as <-. constructor.
    + intros Hall. inversion Hall. reflexivity.
  - split.
    + destruct (f a) as [b | e] eqn:Hfa; simpl; [ | discriminate ].
      fold (for_each f l).
      destruct (for_each f l) as [bs' | e] eqn:Hl; simpl; [ | discriminate ].
      intros Heq. injection Heq as <-.
      constructor; [ exact Hfa | apply IHl; reflexivity ].
    + intros Hall. inversion Hall as [ | a' b l' bs' Hfa Hrest ]; subst.
      rewrite Hfa. simpl. fold (for_each f l).
      apply IHl in Hrest. rewrite Hrest. reflexivity.
Qed.

Lemma for_each_first_raises {A B : Type} (f : A -> result B) a l e :
  f a = Raise e -> for_each f (a :: l) = Raise e.
Proof. intros Hfa. simpl. rewrite Hfa. reflexivity. Qed.

(** ** The encoder *)

Section EncoderProperties.
Context `{Schema}.

Lemma expressionAsJSON_known (e : Expression) :
  known e = true -> exists json, expressionAsJSON e = Ok json.
Proof.
  induction e as [ f v m fl | f | f | es op IHes | r ] using Expression_nested_ind;
    simpl; intros Hk; try (eexists; reflexivity); try discriminate.
  unfold compoundExpressionAsJSON_with.
  assert (exists js, for_each expressionAsJSON es = Ok js) as [js Hjs].
  { induction IHes as [ | e es IHe _ IH ]; [ eexists; reflexivity | ].
    simpl in Hk. apply andb_prop in Hk. destruct Hk as [Hke Hkes].
    destruct (IHe Hke) as [j Hj]. destruct (IH Hkes) as [js Hjs].
    exists (j :: js). simpl. rewrite Hj. simpl.
    fold (for_each expressionAsJSON es). rewrite Hjs. reflexivity. }
  rewrite Hjs. eexists. reflexivity.
Qed.

(** C7. [expressionAsJSON] returns, for a match expression, the object with
    the keys type, field, value, match and flags; for an exists or boolean
    expression, the object with the keys type and field; for a compound
    expression whose children are built from the four classes, the object
    with the keys type, operand and expressions, the latter holding the
    children's encodings in their order. It returns on every tree built
    from the four classes, and raises its TypeError on any other object. *)
Theorem expressionAsJSON_total_on_the_four_variants :
  (forall f v m fl,
      expressionAsJSON (MatchExpression f v m fl)
      = Ok (JDict [ ("type", JString "MatchExpression");
                    ("field", JString (FieldName_name f));
                    ("value", JString v);
                    ("match", JString (MatchType_name m));
                    ("flags", JString (MatchFlags_name fl)) ]))
  /\ (forall f,
      expressionAsJSON (ExistsExpression f)
      = Ok (JDict [ ("type", JString "ExistsExpression");
                    ("field", JString (FieldName_name f)) ]))
  /\ (forall f,
      expressionAsJSON (BooleanExpression f)
      = Ok (JDict [ ("type", JString "BooleanExpression");
                    ("field", JString (FieldName_name f)) ]))
  /\ (forall es op,
      forallb known es = true ->
      exists js,
        Forall2 (fun e j => expressionAsJSON e = Ok j) es js
        /\ expressionAsJSON (CompoundExpression es op)
           = Ok (JDict [ ("type", JString "CompoundExpression");
                         ("operand", JString (Operand_name op));
                         ("expressions", JList js) ]))
  /\ (forall e, known e = true -> exists json, expressionAsJSON e = Ok json)
  /\ (forall r,
      expressionAsJSON (OtherObject r) = Raise (TypeError_unknown_expression r)).
Proof.
  repeat split; try reflexivity.
  - intros es op Hk.
    destruct (expressionAsJSON_known (CompoundExpression es op) Hk) as [json Hjson].
    simpl in Hjson. unfold compoundExpressionAsJSON_with in Hjson.
    destruct (for_each expressionAsJSON es) as [js | e] eqn:Hjs; [ | discriminate ].
    exists js. split.
    + apply for_each_Forall2. exact Hjs.
    + simpl. unfold compoundExpressionAsJSON_with. rewrite Hjs. reflexivity.
  - apply expressionAsJSON_known.
Qed.

End EncoderProperties.

(** ** The dispatch of the decoder *)

Section DecoderProperties.
Context `{Schema}.

Lemma expressionFromJSON_dispatch (d : list (string * JSON)) :
  expressionFromJSON (JDict d)
  = dispatch (compoundExpressionFromJSON (JDict d)) (JDict d).
Proof. rewrite expressionFromJSON_eq. reflexivity. Qed.

Lemma raise_unknown_type_raises {A : Type} (json_type : JSON) :
  outcome (raise_unknown_type (A := A) json_type) = None.
Proof.
  unfold raise_unknown_type. destruct (format_into_str json_type); reflexivity.
Qed.

Lemma not_ascii_not_a_class_name (t : string) :
  is_ascii t = false ->
  eq_str (JString t) "CompoundExpression" = false
  /\ eq_str (JString t) "MatchExpression" = false
  /\ eq_str (JString t) "ExistsExpression" = false
  /\ eq_str (JString t) "BooleanExpression" = false.
Proof.
  intros Ht. simpl.
  repeat split;
    (match goal with
     | |- String.eqb t ?name = false =>
         destruct (String.eqb_spec t name) as [-> | _];
         [ discriminate Ht | reflexivity ]
     end).
Qed.

(** C4. [expressionFromJSON] raises its TypeError on a value that is not a
    dict, and the ValueError naming the key type on a dict without that
    key. On a dict whose type is a string other than the four class names
    it raises the NotImplementedError carrying the type when the string is
    ASCII; when the string has a character outside ASCII, building the
    message raises UnicodeEncodeError and the NotImplementedError is never
    raised. *)
Theorem expressionFromJSON_rejects :
  (forall json,
      (forall d, json <> JDict d) ->
      expressionFromJSON json = Raise TypeError_must_be_dict)
  /\ (forall d,
      getitem d "type" = None ->
      expressionFromJSON (JDict d)
      = Raise (ValueError_must_have_key "expression" "type"))
  /\ (forall d t,
      getitem d "type" = Some (JString t) ->
      ~ In t [ "CompoundExpression"; "MatchExpression";
               "ExistsExpression"; "BooleanExpression" ] ->
      is_ascii t = true ->
      expressionFromJSON (JDict d)
      = Raise (NotImplementedError_unknown_type (JString t)))
  /\ (forall d t,
      getitem d "type" = Some (JString t) ->
      is_ascii t = false ->
      expressionFromJSON (JDict d) = Raise (UnicodeEncodeError t))
  /\ expressionFromJSON (JDict [ ("type", JString (String "233" EmptyString)) ])
     = Raise (UnicodeEncodeError (String "233" EmptyString)).
Proof.
  split; [ | split; [ | split; [ | split ] ] ].
  - apply expressionFromJSON_not_dict.
  - intros d Hd. rewrite expressionFromJSON_dispatch. simpl. rewrite Hd. reflexivity.
  - intros d t Hd Hnot Hascii. rewrite expressionFromJSON_dispatch. simpl.
    rewrite Hd. simpl.
    destruct (String.eqb_spec t "CompoundExpression") as [-> | _];
      [ exfalso; apply Hnot; simpl; tauto | ].
    destruct (String.eqb_spec t "MatchExpression") as [-> | _];
      [ exfalso; apply Hnot; simpl; tauto | ].
    destruct (String.eqb_spec t "ExistsExpression") as [-> | _];
      [ exfalso; apply Hnot; simpl; tauto | ].
    destruct (String.eqb_spec t "BooleanExpression") as [-> | _];
      [ exfalso; apply Hnot; simpl; tauto | ].
    unfold raise_unknown_type, format_into_str. rewrite Hascii. reflexivity.
  - intros d t Hd Hascii. rewrite expressionFromJSON_dispatch.
    unfold dispatch. rewrite Hd.
    destruct (not_ascii_not_a_class_name t Hascii) as [-> [-> [-> ->]]].
    unfold raise_unknown_type, format_into_str. rewrite Hascii. reflexivity.
  - reflexivity.
Qed.

(** C2. On a dict whose type is MatchExpression, ExistsExpression or
    BooleanExpression, [expressionFromJSON] calls the node's decoder with
    [json] alone; the decoder has two required parameters, so the call
    raises the TypeError of the argument count whatever else the dict holds,
    and no expression is returned. *)
Theorem expressionFromJSON_leaf_call_raises (d : list (string * JSON))
  (t fname : string) :
  getitem d "type" = Some (JString t) ->
  In (t, fname) [ ("MatchExpression", "matchExpressionFromJSON");
                  ("ExistsExpression", "existsExpressionFromJSON");
                  ("BooleanExpression", "booleanExpressionFromJSON") ] ->
  expressionFromJSON (JDict d) = Raise (TypeError_arguments fname 2 1)
  /\ forall e, expressionFromJSON (JDict d) <> Ok e.
Proof.
  intros Hd Hin.
  assert (expressionFromJSON (JDict d) = Raise (TypeError_arguments fname 2 1))
    as Hraise.
  { rewrite expressionFromJSON_dispatch. simpl. rewrite Hd.
    simpl in Hin.
    destruct Hin as [Heq | [Heq | [Heq | []]]]; injection Heq as <- <-;
      reflexivity. }
  split; [ exact Hraise | ].
  intros e He. rewrite Hraise in He. discriminate.
Qed.

Lemma expressionFromJSON_compound (d : list (string * JSON)) :
  getitem d "type" = Some (JString "CompoundExpression") ->
  expressionFromJSON (JDict d) = compoundExpressionFromJSON (JDict d).
Proof.
  intros Hd. rewrite expressionFromJSON_dispatch. simpl. rewrite Hd. reflexivity.
Qed.

(** C10. A compound object with a resolvable operand and an empty
    expressions array decodes to a compound expression without children. *)
Theorem compound_decoder_accepts_no_children (d : list (string * JSON))
  (o : string) (op : Operand) :
  getitem d "type" = Some (JString "CompoundExpression") ->
  getitem d "operand" = Some (JString o) ->
  getitem d "expressions" = Some (JList []) ->
  Operand_lookupByName o = Some op ->
  expressionFromJSON (JDict d) = Ok (CompoundExpression [] op).
Proof.
  intros Ht Ho He Hop.
  rewrite (expressionFromJSON_compound d Ht).
  unfold compoundExpressionFromJSON, required. rewrite He, Ho. simpl.
  rewrite Hop. reflexivity.
Qed.

End DecoderProperties.

(** ** Strings: prefixes, suffixes, slices and [split] *)

Lemma length_app (s t : string) :
  String.length (s ++ t) = String.length s + String.length t.
Proof. induction s as [ | c s IHs ]; simpl; [ reflexivity | now rewrite IHs ]. Qed.

Lemma substring_0_length (s : string) : substring 0 (String.length s) s = s.
Proof. induction s as [ | c s IHs ]; simpl; [ reflexivity | now rewrite IHs ]. Qed.

Lemma substring_0_app (s t : string) : substring 0 (String.length s) (s ++ t) = s.
Proof.
  induction s as [ | c s IHs ]; simpl.
  - destruct t; reflexivity.
  - now rewrite IHs.
Qed.

Lemma substring_skip_app (s t : string) (m : nat) :
  substring (String.length s) m (s ++ t) = substring 0 m t.
Proof. induction s as [ | c s IHs ]; simpl; [ reflexivity | exact IHs ]. Qed.

Lemma substring_split (n m : nat) (s : string) :
  n + m = String.length s -> substring 0 n s ++ substring n m s = s.
Proof.
  revert n. induction s as [ | c s IHs ]; intros n Hlen; simpl in Hlen.
  - assert (n = 0) as -> by lia. assert (m = 0) as -> by lia. reflexivity.
  - destruct n as [ | n ]; simpl.
    + destruct m as [ | m ]; [ discriminate | ].
      simpl in Hlen. injection Hlen as ->. now rewrite substring_0_length.
    + f_equal. apply IHs. lia.
Qed.

Lemma startswith_char (c : ascii) (s : string) :
  startswith s (String c EmptyString) = true <-> exists r, s = String c r.
Proof.
  unfold startswith. destruct s as [ | c' s ]; simpl.
  - split; [ discriminate | intros [r Hr]; discriminate ].
  - destruct (ascii_dec c c') as [-> | Hne].
    + split; [ intros _; eexists; reflexivity | intros _; destruct s; reflexivity ].
    + split; [ discriminate | ].
      intros [r Hr]. injection Hr as -> _. contradiction.
Qed.

Lemma endswith_app (r suffix : string) : endswith (r ++ suffix) suffix = true.
Proof.
  unfold endswith. rewrite length_app.
  replace (String.length r + String.length suffix - String.length suffix)
    with (String.length r) by lia.
  rewrite substring_skip_app, substring_0_length, String.eqb_refl.
  rewrite andb_true_r. apply Nat.leb_le. lia.
Qed.

Lemma endswith_inv (s suffix : string) :
  endswith s suffix = true -> exists r, s = r ++ suffix.
Proof.
  unfold endswith. intros Hends. apply andb_prop in Hends.
  destruct Hends as [Hle Heq].
  apply Nat.leb_le in Hle. apply String.eqb_eq in Heq.
  exists (substring 0 (String.length s - String.length suffix) s).
  transitivity
    (substring 0 (String.length s - String.length suffix) s
     ++ substring (String.length s - String.length suffix) (String.length suffix) s).
  - symmetry. apply substring_split. lia.
  - rewrite Heq. reflexivity.
Qed.

(** A string starts with an opening and ends with a closing brace exactly
    when it is an interior between the two. *)
Lemma braces_iff (s : string) :
  startswith s "{" && endswith s "}" = true
  <-> exists body, s = "{" ++ body ++ "}".
Proof.
  split.
  - intros Hb. apply andb_prop in Hb. destruct Hb as [Hs He].
    apply startswith_char in Hs. destruct Hs as [r ->].
    apply endswith_inv in He. destruct He as [r' Hr'].
    destruct r' as [ | c r' ]; simpl in Hr'.
    + discriminate.
    + injection Hr' as _ ->. exists r'. reflexivity.
  - intros [body ->]. apply andb_true_intro. split.
    + apply startswith_char. eexists. reflexivity.
    + change ("{" ++ body ++ "}") with (("{" ++ body) ++ "}"). apply endswith_app.
Qed.

Lemma slice_1_m1_braces (body : string) : slice_1_m1 ("{" ++ body ++ "}") = body.
Proof.
  unfold slice_1_m1. simpl. rewrite length_app. simpl.
  replace (String.length body + 1 - 1) with (String.length body) by lia.
  apply substring_0_app.
Qed.

Lemma split_nonempty (sep : ascii) (s : string) : split sep s <> [].
Proof.
  destruct s as [ | c s ]; simpl; [ discriminate | ].
  destruct (Ascii.eqb c sep); [ discriminate | ].
  destruct (split sep s); discriminate.
Qed.

(** Joining the pieces of a split with the separator gives the string back,
    and no piece holds the separator. *)
Lemma concat_split (sep : ascii) (s : string) :
  String.concat (String sep EmptyString) (split sep s) = s.
Proof.
  induction s as [ | c s IHs ]; simpl; [ reflexivity | ].
  destruct (Ascii.eqb_spec c sep) as [-> | Hne].
  - simpl. pose proof (split_nonempty sep s) as Hne.
    destruct (split sep s) as [ | x xs ]; [ contradiction | ].
    simpl. f_equal. exact IHs.
  - pose proof (split_nonempty sep s) as Hnil.
    destruct (split sep s) as [ | x xs ]; [ contradiction | ].
    simpl in *. destruct xs; simpl in *; now rewrite <- IHs.
Qed.

Lemma split_pieces (sep : ascii) (s : string) :
  Forall (fun piece => contains_char sep piece = false) (split sep s).
Proof.
  induction s as [ | c s IHs ]; simpl.
  - constructor; [ reflexivity | constructor ].
  - destruct (Ascii.eqb_spec c sep) as [-> | Hne].
    + constructor; [ reflexivity | exact IHs ].
    + destruct (split sep s) as [ | x xs ].
      * constructor; [ | constructor ]. simpl.
        apply Ascii.eqb_neq in Hne. rewrite Hne. reflexivity.
      * inversion IHs as [ | ? ? Hx Hxs ]; subst.
        constructor; [ | exact Hxs ]. simpl.
        apply Ascii.eqb_neq in Hne. rewrite Hne. exact Hx.
Qed.

Lemma split_no_separator (sep : ascii) (s : string) :
  contains_char sep s = false -> split sep s = [s].
Proof.
  induction s as [ | c s IHs ]; simpl; [ reflexivity | ].
  intros Hc. apply orb_false_elim in Hc. destruct Hc as [Hc Hs].
  rewrite Hc, (IHs Hs). reflexivity.
Qed.

Lemma split_app_separator (sep : ascii) (x rest : string) :
  contains_char sep x = false ->
  split sep (x ++ String sep rest) = x :: split sep rest.
Proof.
  induction x as [ | c x IHx ]; simpl.
  - intros _. rewrite Ascii.eqb_refl. reflexivity.
  - intros Hc. apply orb_false_elim in Hc. destruct Hc as [Hc Hx].
    rewrite Hc, (IHx Hx). reflexivity.
Qed.

(** Names without a comma, joined with commas, split into themselves. *)
Lemma split_concat (sep : ascii) (names : list string) :
  names <> [] ->
  Forall (fun name => contains_char sep name = false) names ->
  split sep (String.concat (String sep EmptyString) names) = names.
Proof.
  intros Hne Hall. induction Hall as [ | x xs Hx Hxs IH ]; [ contradiction | ].
  destruct xs as [ | y ys ].
  - simpl. apply split_no_separator. exact Hx.
  - change (String.concat (String sep EmptyString) (x :: y :: ys))
      with (x ++ String sep (String.concat (String sep EmptyString) (y :: ys))).
    rewrite split_app_separator by exact Hx. f_equal. apply IH. discriminate.
Qed.

(** ** The flags grammar *)

Section FlagsGrammar.
Context `{Schema}.

Lemma or_each_spec (names : list string) (flags : MatchFlags) :
  or_each flags names
  = match find unresolvable names with
    | Some name => Raise (ValueError_lookupByName (JString name))
    | None => Ok (fold_left MatchFlags_or (resolved names) flags)
    end.
Proof.
  revert flags. induction names as [ | name names IH ]; intros flags; simpl.
  - reflexivity.
  - unfold unresolvable at 1.
    destruct (MatchFlags_lookupByName name) as [f | ] eqn:Hname; simpl.
    + apply IH.
    + reflexivity.
Qed.

Lemma flags_of_names_raised (names : list string) :
  raised (flags_of_names names) = existsb unresolvable names.
Proof.
  unfold flags_of_names.
  induction names as [ | name names IH ]; simpl; [ reflexivity | ].
  destruct (unresolvable name); simpl; [ reflexivity | ].
  destruct (find unresolvable names); exact IH.
Qed.

Lemma matchFlagsFromJSON_composite (body : string) :
  body <> EmptyString ->
  matchFlagsFromJSON (JString ("{" ++ body ++ "}"))
  = flags_of_names (split "," body).
Proof.
  intros Hbody. unfold matchFlagsFromJSON.
  assert (eq_str (JString ("{" ++ body ++ "}")) "{}" = false) as ->.
  { simpl. destruct body as [ | c body ]; [ contradiction | ].
    simpl. destruct (Ascii.eqb c "}"); [ destruct body; reflexivity | reflexivity ]. }
  assert (startswith ("{" ++ body ++ "}") "{" && endswith ("{" ++ body ++ "}") "}"
          = true) as ->.
  { apply braces_iff. eexists. reflexivity. }
  rewrite slice_1_m1_braces. apply or_each_spec.
Qed.

(** C3. [matchFlagsFromJSON] gives the empty flags for the string [{}]; for
    any other string between braces, the OR of the flags that the
    comma-separated names of its interior look up, or the ValueError of the
    first name that does not resolve; and for a string that does not both
    start with an opening and end with a closing brace, such as [{A,B], what
    looking the whole string up gives. *)
Theorem matchFlagsFromJSON_grammar :
  matchFlagsFromJSON (JString "{}") = Ok MatchFlags_none
  /\ (forall s,
      s <> "{}" -> startswith s "{" = true -> endswith s "}" = true ->
      matchFlagsFromJSON (JString s) = flags_of_names (split "," (slice_1_m1 s)))
  /\ (forall names,
      Forall (fun name => contains_char "," name = false) names ->
      String.concat "," names <> EmptyString ->
      matchFlagsFromJSON (JString ("{" ++ String.concat "," names ++ "}"))
      = flags_of_names names)
  /\ (forall names, raised (flags_of_names names) = existsb unresolvable names)
  /\ (forall s,
      startswith s "{" && endswith s "}" = false ->
      matchFlagsFromJSON (JString s)
      = lookupByName MatchFlags_lookupByName (JString s))
  /\ matchFlagsFromJSON (JString "{A,B")
     = lookupByName MatchFlags_lookupByName (JString "{A,B").
Proof.
  split; [ reflexivity | ].
  split; [ | split; [ | split; [ | split; [ | reflexivity ] ] ] ].
  - intros s Hne Hs He.
    assert (startswith s "{" && endswith s "}" = true) as Hb
      by (rewrite Hs, He; reflexivity).
    apply braces_iff in Hb. destruct Hb as [body ->].
    rewrite slice_1_m1_braces. apply matchFlagsFromJSON_composite.
    intros ->. apply Hne. reflexivity.
  - intros names Hall Hne.
    rewrite (matchFlagsFromJSON_composite Hne). f_equal.
    apply split_concat; [ | exact Hall ].
    intros ->. apply Hne. reflexivity.
  - apply flags_of_names_raised.
  - intros s Hb. unfold matchFlagsFromJSON.
    destruct (eq_str (JString s) "{}") eqn:Heq.
    + simpl in Heq. apply String.eqb_eq in Heq. subst s. discriminate.
    + rewrite Hb. reflexivity.
Qed.

End FlagsGrammar.

(** ** The node decoders *)

Section NodeDecoders.
Context `{Schema}.
Variable service : Service.

(** X18. Called with a service and a dict, a node decoder raises the
    ValueError that names the first missing key of its check order: for a
    match expression field, then value; for a compound expression
    expressions, then operand (also when reached through
    [expressionFromJSON]); for an exists or boolean expression field. *)
Theorem first_missing_key_is_reported :
  (forall d,
      getitem d "field" = None ->
      matchExpressionFromJSON service (JDict d)
      = Raise (ValueError_must_have_key "match expression" "field"))
  /\ (forall d x,
      getitem d "field" = Some x -> getitem d "value" = None ->
      matchExpressionFromJSON service (JDict d)
      = Raise (ValueError_must_have_key "match expression" "value"))
  /\ matchExpressionFromJSON service
       (JDict [ ("type", JString "MatchExpression") ])
     = Raise (ValueError_must_have_key "match expression" "field")
  /\ matchExpressionFromJSON service
       (JDict [ ("type", JString "MatchExpression"); ("field", JString "x") ])
     = Raise (ValueError_must_have_key "match expression" "value")
  /\ (forall d,
      getitem d "expressions" = None ->
      compoundExpressionFromJSON (JDict d)
      = Raise (ValueError_must_have_key "compound expression" "expressions"))
  /\ (forall d x,
      getitem d "expressions" = Some x -> getitem d "operand" = None ->
      compoundExpressionFromJSON (JDict d)
      = Raise (ValueError_must_have_key "compound expression" "operand"))
  /\ (forall d,
      getitem d "type" = Some (JString "CompoundExpression") ->
      expressionFromJSON (JDict d) = compoundExpressionFromJSON (JDict d))
  /\ (forall d,
      getitem d "field" = None ->
      existsExpressionFromJSON service (JDict d)
      = Raise (ValueError_must_have_key "match expression" "field"))
  /\ (forall d,
      getitem d "field" = None ->
      booleanExpressionFromJSON service (JDict d)
      = Raise (ValueError_must_have_key "match expression" "field")).
Proof.
  repeat split; try reflexivity.
  - intros d Hf. unfold matchExpressionFromJSON, required. now rewrite Hf.
  - intros d x Hf Hv. unfold matchExpressionFromJSON, required.
    rewrite Hf. simpl. now rewrite Hv.
  - intros d He. unfold compoundExpressionFromJSON, required. now rewrite He.
  - intros d x He Ho. unfold compoundExpressionFromJSON, required.
    rewrite He. simpl. now rewrite Ho.
  - apply expressionFromJSON_compound.
  - intros d Hf. unfold existsExpressionFromJSON, required. now rewrite Hf.
  - intros d Hf. unfold booleanExpressionFromJSON, required. now rewrite Hf.
Qed.

Lemma getitem_other_key {V : Type} (d : list (string * V)) (k key : string) (v : V) :
  k <> key -> getitem ((k, v) :: d) key = getitem d key.
Proof. intros Hne. simpl. apply String.eqb_neq in Hne. now rewrite Hne. Qed.

(** C6. A match object without the key match decodes as the same object
    with match set to equals, one without the key flags as the same object
    with flags set to the empty encoding; the node decoded from an object
    without either carries the match type named equals and the empty flags. *)
Theorem matchExpressionFromJSON_defaults (d : list (string * JSON)) :
  (getitem d "match" = None ->
   matchExpressionFromJSON service (JDict d)
   = matchExpressionFromJSON service (JDict (("match", JString "equals") :: d)))
  /\ (getitem d "flags" = None ->
      matchExpressionFromJSON service (JDict d)
      = matchExpressionFromJSON service (JDict (("flags", JString "{}") :: d)))
  /\ (forall jsonField fieldName jsonValue equals,
      getitem d "match" = None ->
      getitem d "flags" = None ->
      getitem d "field" = Some jsonField ->
      lookupByName (fieldName_lookupByName service) jsonField = Ok fieldName ->
      getitem d "value" = Some jsonValue ->
      MatchType_lookupByName "equals" = Some equals ->
      matchExpressionFromJSON service (JDict d)
      = Ok (MatchExpression fieldName (unicode jsonValue) equals MatchFlags_none))
  /\ (forall fieldName fieldValue matchType flags,
      matchExpressionFromJSON service (JDict d)
      = Ok (MatchExpression fieldName fieldValue matchType flags) ->
      (getitem d "match" = None -> MatchType_lookupByName "equals" = Some matchType)
      /\ (getitem d "flags" = None -> flags = MatchFlags_none)).
Proof.
  split; [ | split; [ | split ] ].
  - intros Hm. unfold matchExpressionFromJSON, required, get_default, get.
    rewrite !getitem_other_key by discriminate. rewrite Hm. reflexivity.
  - intros Hf. unfold matchExpressionFromJSON, required, get_default, get.
    rewrite !getitem_other_key by discriminate. rewrite Hf. reflexivity.
  - intros jsonField fieldName jsonValue equals Hm Hf Hfield Hname Hvalue Heq.
    unfold matchExpressionFromJSON, required, get_default, get.
    rewrite Hfield, Hvalue, Hm, Hf. simpl. rewrite Hname. simpl.
    unfold matchTypeFromJSON. simpl. rewrite Heq. reflexivity.
  - intros fieldName fieldValue matchType flags.
    unfold matchExpressionFromJSON, required, get_default, get.
    destruct (getitem d "field") as [jsonField | ]; simpl; [ | discriminate ].
    destruct (getitem d "value") as [jsonValue | ]; simpl; [ | discriminate ].
    destruct (lookupByName (fieldName_lookupByName service) jsonField);
      simpl; [ | discriminate ].
    intros Hdec. split.
    + intros Hm. rewrite Hm in Hdec. unfold matchTypeFromJSON in Hdec.
      simpl in Hdec.
      destruct (MatchType_lookupByName "equals") as [m | ]; simpl in Hdec;
        [ | discriminate ].
      destruct (matchFlagsFromJSON _); simpl in Hdec; [ | discriminate ].
      injection Hdec as _ _ <- _. reflexivity.
    + intros Hf. rewrite Hf in Hdec.
      destruct (matchTypeFromJSON _); simpl in Hdec; [ | discriminate ].
      change (matchFlagsFromJSON (JString "{}")) with (Ok MatchFlags_none) in Hdec.
      simpl in Hdec. injection Hdec as _ _ _ <-. reflexivity.
Qed.

(** X19. Called with a service, [matchExpressionFromJSON] returns, once
    the field, match type and flags of the dict resolve, the node whose
    [fieldValue] is [unicode] of the JSON value under value: [None] for
    null, [True] or [False] for a boolean, the decimal numeral of an
    integer, a string itself, and for a list or a dict the bracketed
    [repr]s of its items, joined with a comma and a space. *)
Theorem matchExpressionFromJSON_stringifies_value (d : list (string * JSON))
  (jsonField jsonValue : JSON) (fieldName : FieldName)
  (matchType : MatchType) (flags : MatchFlags) :
  getitem d "field" = Some jsonField ->
  getitem d "value" = Some jsonValue ->
  lookupByName (fieldName_lookupByName service) jsonField = Ok fieldName ->
  matchTypeFromJSON (get d "match" (JString "equals")) = Ok matchType ->
  matchFlagsFromJSON (get d "flags" (JString "{}")) = Ok flags ->
  matchExpressionFromJSON service (JDict d)
  = Ok (MatchExpression fieldName (unicode jsonValue) matchType flags)
  /\ (jsonValue = JNull -> unicode jsonValue = "None")
  /\ (forall n, jsonValue = JInt n -> unicode jsonValue = str_int n)
  /\ (forall b, jsonValue = JBool b ->
                unicode jsonValue = if b then "True" else "False")
  /\ (forall s, jsonValue = JString s -> unicode jsonValue = s)
  /\ (forall l, jsonValue = JList l ->
                unicode jsonValue = "[" ++ String.concat ", " (map repr l) ++ "]")
  /\ (forall items, jsonValue = JDict items ->
                    unicode jsonValue
                    = "{" ++ String.concat ", "
                               (map (fun kv => repr_unicode (fst kv) ++ ": "
                                                ++ repr (snd kv)) items)
                          ++ "}").
Proof.
  intros Hfield Hvalue Hname Hmatch Hflags. split.
  - unfold matchExpressionFromJSON, required, get_default.
    rewrite Hfield, Hvalue. simpl. rewrite Hname. simpl.
    rewrite Hmatch. simpl. rewrite Hflags. reflexivity.
  - split; [ intros ->; reflexivity | ].
    repeat split; intros x ->; reflexivity.
Qed.

End NodeDecoders.

(** ** The simple nodes at the dispatcher *)

Section SimpleNodesAtDispatcher.
Context `{Schema}.

(** C5. Through [expressionFromJSON] the missing key of a match, exists or
    boolean object is not reported: the objects of the specification's
    missing-key test raise the TypeError of the node decoder called with
    one argument, as does any exists or boolean object without field. The
    compound decoder is entered, and reports expressions before operand. *)
Theorem missing_key_of_a_simple_node_is_not_reported :
  expressionFromJSON (JDict [ ("type", JString "MatchExpression") ])
  = Raise (TypeError_arguments "matchExpressionFromJSON" 2 1)
  /\ expressionFromJSON
       (JDict [ ("type", JString "MatchExpression"); ("field", JString "x") ])
     = Raise (TypeError_arguments "matchExpressionFromJSON" 2 1)
  /\ expressionFromJSON (JDict [ ("type", JString "ExistsExpression") ])
     = Raise (TypeError_arguments "existsExpressionFromJSON" 2 1)
  /\ expressionFromJSON (JDict [ ("type", JString "BooleanExpression") ])
     = Raise (TypeError_arguments "booleanExpressionFromJSON" 2 1)
  /\ (forall d,
      getitem d "type" = Some (JString "CompoundExpression") ->
      getitem d "expressions" = None ->
      expressionFromJSON (JDict d)
      = Raise (ValueError_must_have_key "compound expression" "expressions"))
  /\ (forall d x,
      getitem d "type" = Some (JString "CompoundExpression") ->
      getitem d "expressions" = Some x -> getitem d "operand" = None ->
      expressionFromJSON (JDict d)
      = Raise (ValueError_must_have_key "compound expression" "operand")).
Proof.
  repeat split; try reflexivity.
  - intros d Ht He. rewrite (expressionFromJSON_compound d Ht).
    unfold compoundExpressionFromJSON, required. now rewrite He.
  - intros d x Ht He Ho. rewrite (expressionFromJSON_compound d Ht).
    unfold compoundExpressionFromJSON, required. rewrite He. simpl. now rewrite Ho.
Qed.

(** C8. Through [expressionFromJSON] the value of a match object is never
    turned into a string: whatever the object holds, a number under value
    included, decoding raises the TypeError of [matchExpressionFromJSON]
    called with one argument, and no node is built. *)
Theorem match_value_is_not_decoded (d : list (string * JSON)) :
  getitem d "type" = Some (JString "MatchExpression") ->
  expressionFromJSON (JDict d)
  = Raise (TypeError_arguments "matchExpressionFromJSON" 2 1).
Proof.
  intros Ht. rewrite expressionFromJSON_dispatch. simpl. rewrite Ht. reflexivity.
Qed.

End SimpleNodesAtDispatcher.

(** ** The text encoder *)

Lemma append_assoc (s t u : string) : (s ++ t) ++ u = s ++ (t ++ u).
Proof. induction s as [ | c s IHs ]; simpl; [ reflexivity | now rewrite IHs ]. Qed.

Lemma append_empty_r (s : string) : s ++ EmptyString = s.
Proof. induction s as [ | c s IHs ]; simpl; [ reflexivity | now rewrite IHs ]. Qed.

Lemma scan_app (st : Scan) (s t : string) : scan st (s ++ t) = scan (scan st s) t.
Proof. revert st. induction s as [ | c s IHs ]; intros st; simpl; [ reflexivity | apply IHs ]. Qed.

(** An escaped character leaves the scan inside the string literal. *)
Lemma scan_escape_char (c : ascii) : scan Inside (escape_char c) = Inside.
Proof. destruct c as [[] [] [] [] [] [] [] []]; reflexivity. Qed.

Lemma scan_escape (s : string) : scan Inside (escape s) = Inside.
Proof.
  induction s as [ | c s IHs ]; simpl; [ reflexivity | ].
  now rewrite scan_app, scan_escape_char.
Qed.

Lemma token_string (s : string) : token (encode_basestring_ascii s).
Proof.
  intros previous rest. unfold encode_basestring_ascii.
  cbn [append scan]. replace (scan_step (Outside previous) dquote) with Inside
    by (destruct previous; reflexivity).
  rewrite append_assoc, scan_app, scan_escape. reflexivity.
Qed.

Lemma token_numeral_chars (s : string) :
  s <> EmptyString ->
  Forall numeral_char (list_ascii_of_string s) ->
  token s.
Proof.
  intros Hne Hall previous rest. revert previous.
  induction s as [ | c s IHs ]; [ contradiction | ].
  intros previous. simpl in Hall. inversion Hall as [ | ? ? Hc Hs ]; subst.
  cbn [append scan]. rewrite Hc. destruct s as [ | c' s ]; [ reflexivity | ].
  apply IHs; [ discriminate | exact Hs ].
Qed.

Lemma string_of_uint_numeral (d : Decimal.uint) :
  Forall numeral_char (list_ascii_of_string (NilEmpty.string_of_uint d)).
Proof.
  induction d; simpl; constructor; try assumption;
    intros previous; destruct previous; reflexivity.
Qed.

Lemma token_int (n : Z) : token (str_int n).
Proof.
  unfold str_int. apply token_numeral_chars.
  - destruct (Z.to_int n) as [d | d]; simpl; [ | discriminate ].
    destruct d; discriminate.
  - destruct (Z.to_int n) as [d | d]; simpl.
    + destruct d; try apply string_of_uint_numeral.
      constructor; [ intros []; reflexivity | constructor ].
    + constructor; [ intros []; reflexivity | ].
      destruct d; try apply string_of_uint_numeral.
      constructor; [ intros []; reflexivity | constructor ].
Qed.

(** Tokens joined with commas: the scan is carried over all of them. *)
Lemma scan_items_from (previous : Previous) (items : list string) (rest : string) :
  Forall token items ->
  items <> [] ->
  scan (Outside previous) (String.concat "," items ++ rest)
  = scan (Outside WasOther) rest.
Proof.
  intros Hall. revert previous.
  induction Hall as [ | x xs Hx Hxs IH ]; intros previous Hne; [ contradiction | ].
  destruct xs as [ | y ys ].
  - simpl. apply Hx.
  - change (String.concat "," (x :: y :: ys))
      with (x ++ String "," (String.concat "," (y :: ys))).
    rewrite append_assoc, Hx. cbn [append scan].
    change (scan_step (Outside WasOther) ",") with (Outside WasSeparator).
    apply IH. discriminate.
Qed.

Lemma scan_items (items : list string) (rest : string) :
  Forall token items ->
  scan (Outside WasOther) (String.concat "," items ++ rest)
  = scan (Outside WasOther) rest.
Proof.
  intros Hall. destruct items as [ | x xs ]; [ reflexivity | ].
  apply scan_items_from; [ exact Hall | discriminate ].
Qed.

Lemma token_dumps (json : JSON) : token (dumps "," ":" json).
Proof.
  induction json as [ | b | n | s | l IHl | d IHd ] using JSON_nested_ind.
  - intros previous rest. destruct previous; reflexivity.
  - intros previous rest. destruct b, previous; reflexivity.
  - apply token_int.
  - apply token_string.
  - intros previous rest. cbn [dumps].
    rewrite !append_assoc. cbn [append scan].
    replace (scan_step (Outside previous) "[") with (Outside WasOther)
      by (destruct previous; reflexivity).
    rewrite scan_items.
    + reflexivity.
    + apply Forall_map. exact IHl.
  - intros previous rest. cbn [dumps].
    rewrite !append_assoc. cbn [append scan].
    replace (scan_step (Outside previous) "{") with (Outside WasOther)
      by (destruct previous; reflexivity).
    rewrite scan_items.
    + reflexivity.
    + apply Forall_map. apply Forall_forall. intros [k v] Hkv.
      rewrite Forall_forall in IHd. specialize (IHd (k, v) Hkv).
      intros previous' rest'. cbn [fst snd].
      rewrite !append_assoc, token_string. cbn [append scan].
      apply IHd.
Qed.

Lemma scan_dumps (json : JSON) :
  scan (Outside WasOther) (dumps "," ":" json) = Outside WasOther.
Proof.
  rewrite <- (append_empty_r (dumps "," ":" json)), token_dumps. reflexivity.
Qed.

(** X3. For every JSON value, [to_json_text] produces a text with no space
    next to a [,] or [:] separator. *)
Theorem to_json_text_compact (json : JSON) : compact (to_json_text json) = true.
Proof. unfold compact, to_json_text. rewrite scan_dumps. reflexivity. Qed.

(** C9. The text [expressionAsJSONText] produces, which it does for every
    tree built from the four classes, has no space next to a [,] or [:]
    separator. *)
Theorem expressionAsJSONText_compact `{Schema} (T : Expression) :
  (known T = true -> exists text, expressionAsJSONText T = Ok text)
  /\ (forall text, expressionAsJSONText T = Ok text -> compact text = true).
Proof.
  unfold expressionAsJSONText. split.
  - intros Hk. destruct (expressionAsJSON_known T Hk) as [json ->].
    eexists. reflexivity.
  - intros text. destruct (expressionAsJSON T) as [json | e]; simpl; [ | discriminate ].
    intros Heq. injection Heq as <-.
    unfold compact, to_json_text. rewrite scan_dumps. reflexivity.
Qed.

(** ** Encoding, then decoding *)

Section RoundTrip.
Context `{Schema}.

Lemma well_formed_known (T : Expression) : well_formed T = true -> known T = true.
Proof.
  induction T as [ f v m fl | f | f | es op IHes | r ] using Expression_nested_ind;
    simpl; try reflexivity; try discriminate.
  intros Hwf. apply andb_prop in Hwf. destruct Hwf as [_ Hwf].
  induction IHes as [ | e es IHe _ IH ]; [ reflexivity | ].
  simpl in *. apply andb_prop in Hwf. destruct Hwf as [He Hes].
  rewrite (IHe He), (IH Hes). reflexivity.
Qed.

Lemma well_formed_has_leaf (T : Expression) : well_formed T = true -> 0 < leaves T.
Proof.
  induction T as [ f v m fl | f | f | es op IHes | r ] using Expression_nested_ind;
    simpl; try lia; try discriminate.
  intros Hwf. apply andb_prop in Hwf. destruct Hwf as [Hne Hwf].
  destruct IHes as [ | e es IHe _ ]; [ discriminate | ].
  simpl in *. apply andb_prop in Hwf. destruct Hwf as [He _].
  specialize (IHe He). lia.
Qed.

Lemma getitem_In {V : Type} (d : list (string * V)) (key : string) (v : V) :
  getitem d key = Some v -> In (key, v) d.
Proof.
  induction d as [ | [k v'] d IHd ]; simpl; [ discriminate | ].
  destruct (String.eqb_spec k key) as [-> | _].
  - intros Heq. injection Heq as ->. left. reflexivity.
  - intros Hd. right. apply IHd. exact Hd.
Qed.

(** Every expression [expressionFromJSON] returns is made of compound
    expressions alone: it has no match, exists or boolean node. The same
    holds of the expressions decoded from the items of a value. *)
Lemma decoded_without_leaf (json : JSON) :
  (forall e, expressionFromJSON json = Ok e -> leaves e = 0)
  /\ (forall es, decode_each json = Ok es -> Forall (fun e => leaves e = 0) es).
Proof.
  induction json as [ | b | n | s | l IHl | d IHd ] using JSON_nested_ind;
    (split; [ intros e | intros es ]); try discriminate.
  - unfold decode_each. simpl. destruct s as [ | c s ]; simpl; [ | discriminate ].
    intros Heq. injection Heq as <-. constructor.
  - unfold decode_each. simpl. intros Hes. apply for_each_Forall2 in Hes.
    induction Hes as [ | j e l es Hje _ IH ]; constructor.
    + inversion IHl as [ | ? ? [Hj _] _ ]; subst. apply Hj. exact Hje.
    + apply IH. inversion IHl; assumption.
  - rewrite expressionFromJSON_dispatch. simpl.
    destruct (getitem d "type") as [t | ]; [ | discriminate ].
    destruct (eq_str t "CompoundExpression");
      [ | destruct (eq_str t "MatchExpression");
          [ discriminate
          | destruct (eq_str t "ExistsExpression");
            [ discriminate
            | destruct (eq_str t "BooleanExpression");
              [ discriminate
              | unfold raise_unknown_type; destruct (format_into_str t);
                discriminate ] ] ] ].
    unfold compoundExpressionFromJSON, required.
    destruct (getitem d "expressions") as [v | ] eqn:Hv; simpl; [ | discriminate ].
    destruct (getitem d "operand") as [o | ]; simpl; [ | discriminate ].
    destruct (decode_each v) as [es | ] eqn:Hes; simpl; [ | discriminate ].
    destruct (lookupByName Operand_lookupByName o) as [op | ]; simpl;
      [ | discriminate ].
    intros Heq. injection Heq as <-. simpl.
    apply getitem_In in Hv. rewrite Forall_forall in IHd.
    destruct (IHd _ Hv) as [_ Hitems]. specialize (Hitems es Hes).
    clear - Hitems.
    induction Hitems as [ | e es He _ IH ]; simpl; [ reflexivity | ].
    rewrite He, IH. reflexivity.
  - unfold decode_each. simpl. destruct d as [ | kv d ]; simpl; [ | discriminate ].
    intros Heq. injection Heq as <-. constructor.
Qed.

(** X2. Every expression [expressionFromJSON] returns consists of compound
    expressions alone. *)
Theorem expressionFromJSON_returns_compounds_only (json : JSON) (e : Expression) :
  expressionFromJSON json = Ok e -> leaves e = 0.
Proof. apply decoded_without_leaf. Qed.

(** C1, at the JSON level: encoding a well-formed tree and decoding the
    result raises the TypeError of a node decoder called with one argument;
    the tree is not returned. *)
Theorem roundtrip_raises_on_well_formed_trees (T : Expression) :
  well_formed T = true ->
  exists json fname,
    expressionAsJSON T = Ok json
    /\ expressionFromJSON json = Raise (TypeError_arguments fname 2 1).
Proof.
  induction T as [ f v m fl | f | f | es op IHes | r ] using Expression_nested_ind;
    simpl; try discriminate.
  - intros _. do 2 eexists. split; reflexivity.
  - intros _. do 2 eexists. split; reflexivity.
  - intros _. do 2 eexists. split; reflexivity.
  - intros Hwf.
    pose proof (well_formed_known (CompoundExpression es op) Hwf) as Hk.
    apply andb_prop in Hwf. destruct Hwf as [Hne Hwf].
    destruct (expressionAsJSON_known _ Hk) as [json Hjson].
    simpl in Hjson. unfold compoundExpressionAsJSON_with in *.
    destruct (for_each expressionAsJSON es) as [js | ] eqn:Hjs; [ | discriminate ].
    clear Hjson json.
    destruct IHes as [ | e es IHe _ ]; [ discriminate | ].
    simpl in Hwf. apply andb_prop in Hwf. destruct Hwf as [He _].
    destruct (IHe He) as [j [fname [Hj Hraise]]].
    apply for_each_Forall2 in Hjs.
    inversion Hjs as [ | ? j' ? js' Hj' _ ]; subst.
    rewrite Hj in Hj'. injection Hj' as <-.
    exists (JDict [ ("type", JString "CompoundExpression");
                    ("operand", JString (Operand_name op));
                    ("expressions", JList (j :: js')) ]), fname.
    split; [ reflexivity | ].
    rewrite expressionFromJSON_compound by reflexivity.
    unfold compoundExpressionFromJSON, required, decode_each. simpl.
    rewrite Hraise. reflexivity.
Qed.

(** C1, at the text level: whatever JSON parser and whatever text,
    [expressionFromJSONText] does not return a tree that has a match, exists
    or boolean node; so it returns no well-formed tree, and in particular
    not the tree a text was encoded from. *)
Lemma expressionFromJSONText_returns_no_well_formed_tree
  (from_json_text : string -> result JSON) (jsonText : string) (T : Expression) :
  well_formed T = true ->
  expressionFromJSONText from_json_text jsonText <> Ok T.
Proof.
  intros Hwf Hdec. unfold expressionFromJSONText in Hdec.
  destruct (from_json_text jsonText) as [json | ]; simpl in Hdec; [ | discriminate ].
  apply decoded_without_leaf in Hdec.
  apply well_formed_has_leaf in Hwf. lia.
Qed.

End RoundTrip.

(** ** The node decoders invert the node encoders

    Called with a service, as their signature asks, the decoders of the
    simple nodes give back the node that was encoded, provided the names
    resolve to the constants they name. *)

Section NodeRoundTrip.
Context `{Schema}.
Variable service : Service.

(** X1. With a service, the decoder of a match, exists or boolean node
    returns the node its encoder was given, when the names of the node's
    field, match type and flags resolve to them. *)
Theorem node_decoders_invert_node_encoders
  (f : FieldName) (v : string) (m : MatchType) (fl : MatchFlags) :
  fieldName_lookupByName service (FieldName_name f) = Some f ->
  MatchType_lookupByName (MatchType_name m) = Some m ->
  matchFlagsFromJSON (JString (MatchFlags_name fl)) = Ok fl ->
  matchExpressionFromJSON service (matchExpressionAsJSON f v m fl)
  = Ok (MatchExpression f v m fl)
  /\ existsExpressionFromJSON service (existsExpressionAsJSON f)
     = Ok (ExistsExpression f)
  /\ booleanExpressionFromJSON service (booleanExpressionAsJSON f)
     = Ok (BooleanExpression f).
Proof.
  intros Hf Hm Hfl. repeat split.
  - unfold matchExpressionFromJSON, matchExpressionAsJSON. simpl.
    rewrite Hf. simpl. unfold matchTypeFromJSON. simpl. rewrite Hm. simpl.
    unfold get. simpl. rewrite Hfl. reflexivity.
  - unfold existsExpressionFromJSON, existsExpressionAsJSON. simpl.
    rewrite Hf. reflexivity.
  - unfold booleanExpressionFromJSON, booleanExpressionAsJSON. simpl.
    rewrite Hf. reflexivity.
Qed.

End NodeRoundTrip.

(** ** Trees of compound expressions *)

Lemma for_each_inverse {A B : Type} (f : A -> result B) (g : B -> result A)
  (l : list A) :
  Forall (fun a => exists b, f a = Ok b /\ g b = Ok a) l ->
  exists bs, for_each f l = Ok bs /\ for_each g bs = Ok l.
Proof.
  induction 1 as [ | a l [b [Hf Hg]] _ [bs [Hfs Hgs]] ].
  - exists []. split; reflexivity.
  - exists (b :: bs). split; simpl.
    + rewrite Hf. simpl. fold (for_each f l). rewrite Hfs. reflexivity.
    + rewrite Hg. simpl. fold (for_each g bs). rewrite Hgs. reflexivity.
Qed.

Lemma list_sum_zero (ns : list nat) : list_sum ns = 0 -> Forall (fun n => n = 0) ns.
Proof.
  induction ns as [ | n ns IH ]; simpl; intros Hsum; constructor.
  - lia.
  - apply IH. lia.
Qed.

Section CompoundTrees.
Context `{Schema}.
Hypothesis operand_names_resolve :
  forall op, Operand_lookupByName (Operand_name op) = Some op.

Lemma compound_tree_decodes (T : Expression) :
  known T = true -> leaves T = 0 ->
  exists json, expressionAsJSON T = Ok json /\ expressionFromJSON json = Ok T.
Proof.
  induction T as [ f v m fl | f | f | es op IHes | r ] using Expression_nested_ind;
    simpl; try discriminate.
  intros Hk Hl.
  assert (Forall (fun e => exists j, expressionAsJSON e = Ok j
                                     /\ expressionFromJSON j = Ok e) es) as Hall.
  { apply list_sum_zero in Hl. rewrite Forall_map in Hl.
    rewrite forallb_forall in Hk. rewrite Forall_forall in *.
    intros e He. apply IHes; auto. }
  destruct (for_each_inverse _ _ Hall) as [js [Henc Hdec]].
  unfold compoundExpressionAsJSON_with. rewrite Henc. simpl.
  eexists. split; [ reflexivity | ].
  rewrite expressionFromJSON_compound by reflexivity.
  unfold compoundExpressionFromJSON, required, decode_each. simpl.
  rewrite Hdec. simpl. rewrite operand_names_resolve. reflexivity.
Qed.

(** X4. When every operand's name resolves to the operand, a tree built
    from the four classes survives encoding followed by decoding exactly
    when it has no match, exists or boolean node. *)
Theorem roundtrip_iff_compound_only (T : Expression) :
  known T = true ->
  ((json <- expressionAsJSON T ;; expressionFromJSON json) = Ok T
   <-> leaves T = 0).
Proof.
  intros Hk. split.
  - destruct (expressionAsJSON T) as [json | ]; simpl; [ | discriminate ].
    apply decoded_without_leaf.
  - intros Hl. destruct (compound_tree_decodes T Hk Hl) as [json [-> Hdec]].
    exact Hdec.
Qed.

Lemma decoded_known (json : JSON) :
  (forall e, expressionFromJSON json = Ok e -> known e = true)
  /\ (forall es, decode_each json = Ok es -> forallb known es = true).
Proof.
  induction json as [ | b | n | s | l IHl | d IHd ] using JSON_nested_ind;
    (split; [ intros e | intros es ]); try discriminate.
  - unfold decode_each. simpl. destruct s as [ | c s ]; simpl; [ | discriminate ].
    intros Heq. injection Heq as <-. reflexivity.
  - unfold decode_each. simpl. intros Hes. apply for_each_Forall2 in Hes.
    induction Hes as [ | j e l es Hje _ IH ]; [ reflexivity | ].
    inversion IHl as [ | ? ? [Hj _] Hl ]; subst. simpl.
    rewrite (Hj _ Hje), (IH Hl). reflexivity.
  - rewrite expressionFromJSON_dispatch. simpl.
    destruct (getitem d "type") as [t | ]; [ | discriminate ].
    destruct (eq_str t "CompoundExpression");
      [ | destruct (eq_str t "MatchExpression");
          [ discriminate
          | destruct (eq_str t "ExistsExpression");
            [ discriminate
            | destruct (eq_str t "BooleanExpression");
              [ discriminate
              | unfold raise_unknown_type; destruct (format_into_str t);
                discriminate ] ] ] ].
    unfold compoundExpressionFromJSON, required.
    destruct (getitem d "expressions") as [v | ] eqn:Hv; simpl; [ | discriminate ].
    destruct (getitem d "operand") as [o | ]; simpl; [ | discriminate ].
    destruct (decode_each v) as [es | ] eqn:Hes; simpl; [ | discriminate ].
    destruct (lookupByName Operand_lookupByName o) as [op | ]; simpl;
      [ | discriminate ].
    intros Heq. injection Heq as <-. simpl.
    apply getitem_In in Hv. rewrite Forall_forall in IHd.
    destruct (IHd _ Hv) as [_ Hitems]. exact (Hitems es Hes).
  - unfold decode_each. simpl. destruct d as [ | kv d ]; simpl; [ | discriminate ].
    intros Heq. injection Heq as <-. reflexivity.
Qed.

(** X5. When every operand's name resolves to the operand, an expression
    that [expressionFromJSON] returned can be encoded, and decoding its
    encoding returns the same expression. *)
Theorem decoded_expression_roundtrips (json : JSON) (T : Expression) :
  expressionFromJSON json = Ok T ->
  exists json', expressionAsJSON T = Ok json' /\ expressionFromJSON json' = Ok T.
Proof.
  intros Hdec. apply compound_tree_decodes.
  - eapply decoded_known. exact Hdec.
  - eapply decoded_without_leaf. exact Hdec.
Qed.

End CompoundTrees.

(** ** The encoding is injective *)

Section EncoderInjective.
Context `{Schema}.
Hypothesis FieldName_name_injective :
  forall f f', FieldName_name f = FieldName_name f' -> f = f'.
Hypothesis MatchType_name_injective :
  forall m m', MatchType_name m = MatchType_name m' -> m = m'.
Hypothesis MatchFlags_name_injective :
  forall fl fl', MatchFlags_name fl = MatchFlags_name fl' -> fl = fl'.
Hypothesis Operand_name_injective :
  forall op op', Operand_name op = Operand_name op' -> op = op'.

(** X6. When the constants of each kind have different names, two
    expressions with the same encoding are the same expression. *)
Theorem expressionAsJSON_injective (T T' : Expression) (json : JSON) :
  expressionAsJSON T = Ok json -> expressionAsJSON T' = Ok json -> T = T'.
Proof.
  revert T' json.
  induction T as [ f v m fl | f | f | es op IHes | r ] using Expression_nested_ind;
    intros T' json HT HT'; simpl in HT; try discriminate;
    try (injection HT as <-;
         destruct T' as [ f' v' m' fl' | f' | f' | es' op' | r' ]; simpl in HT';
         try discriminate;
         try (unfold compoundExpressionAsJSON_with in HT';
              destruct (for_each expressionAsJSON es'); discriminate)).
  - injection HT' as Hf Hv Hm Hfl.
    apply FieldName_name_injective in Hf. apply MatchType_name_injective in Hm.
    apply MatchFlags_name_injective in Hfl. subst. reflexivity.
  - injection HT' as Hf. apply FieldName_name_injective in Hf. subst. reflexivity.
  - injection HT' as Hf. apply FieldName_name_injective in Hf. subst. reflexivity.
  - unfold compoundExpressionAsJSON_with in HT.
    destruct (for_each expressionAsJSON es) as [js | ] eqn:Hjs; [ | discriminate ].
    simpl in HT. injection HT as <-.
    destruct T' as [ f' v' m' fl' | f' | f' | es' op' | r' ]; simpl in HT';
      try discriminate.
    unfold compoundExpressionAsJSON_with in HT'.
    destruct (for_each expressionAsJSON es') as [js' | ] eqn:Hjs'; [ | discriminate ].
    simpl in HT'. injection HT' as Hop Hjs''. subst js'.
    apply Operand_name_injective in Hop. subst op'. f_equal.
    apply for_each_Forall2 in Hjs. apply for_each_Forall2 in Hjs'.
    clear - IHes Hjs Hjs'. revert es' Hjs'.
    induction Hjs as [ | e j es js He _ IH ]; intros es' Hjs'.
    + inversion Hjs'. reflexivity.
    + inversion Hjs' as [ | e' ? es'' ? He' Hrest ]; subst.
      inversion IHes as [ | ? ? IHe IHrest ]; subst. f_equal.
      * eapply IHe; eassumption.
      * apply IH; assumption.
Qed.

End EncoderInjective.

(** ** What the decoder reads of a dict *)

Lemma same_content_refl (json : JSON) : same_content json json.
Proof.
  induction json as [ | b | n | s | l IHl | d IHd ] using JSON_nested_ind;
    try constructor.
  - induction IHl; constructor; assumption.
  - tauto.
  - intros key v v' Hv Hv'. rewrite Hv in Hv'. injection Hv' as <-.
    apply getitem_In in Hv. rewrite Forall_forall in IHd. exact (IHd _ Hv).
Qed.

Lemma getitem_not_In {V : Type} (d : list (string * V)) (key : string) :
  getitem d key = None <-> ~ In key (map fst d).
Proof.
  induction d as [ | [k v] d IHd ]; simpl; [ tauto | ].
  destruct (String.eqb_spec k key) as [-> | Hne].
  - split; [ discriminate | intros Hnot; exfalso; apply Hnot; left; reflexivity ].
  - rewrite IHd. tauto.
Qed.

Lemma getitem_NoDup_In {V : Type} (d : list (string * V)) (key : string) (v : V) :
  NoDup (map fst d) -> In (key, v) d -> getitem d key = Some v.
Proof.
  induction d as [ | [k v'] d IHd ]; simpl; [ contradiction | ].
  intros Hnd Hin. inversion Hnd as [ | ? ? Hk Hd ]; subst.
  destruct Hin as [Heq | Hin].
  - injection Heq as -> ->. rewrite String.eqb_refl. reflexivity.
  - destruct (String.eqb_spec k key) as [-> | _]; [ | apply IHd; assumption ].
    exfalso. apply Hk. apply in_map_iff. exists (key, v). split; [ reflexivity | exact Hin ].
Qed.

(** A dict with distinct keys holds the same bindings however its items
    are ordered. *)
Lemma getitem_Permutation {V : Type} (d d' : list (string * V)) (key : string) :
  NoDup (map fst d) -> Permutation d d' -> getitem d key = getitem d' key.
Proof.
  intros Hnd Hperm.
  assert (NoDup (map fst d')) as Hnd'.
  { eapply Permutation_NoDup; [ apply Permutation_map; exact Hperm | exact Hnd ]. }
  destruct (getitem d key) as [v | ] eqn:Hv.
  - symmetry. apply getitem_NoDup_In; [ exact Hnd' | ].
    eapply Permutation_in; [ exact Hperm | apply getitem_In; exact Hv ].
  - symmetry. apply getitem_not_In. apply getitem_not_In in Hv.
    intros Hin. apply Hv.
    eapply Permutation_in; [ apply Permutation_map, Permutation_sym; exact Hperm | exact Hin ].
Qed.

Lemma reordered_same_content (d d' : list (string * JSON)) :
  NoDup (map fst d) -> Permutation d d' -> same_content (JDict d) (JDict d').
Proof.
  intros Hnd Hperm. constructor.
  - intros key. rewrite (getitem_Permutation key Hnd Hperm). tauto.
  - intros key v v' Hv Hv'. rewrite (getitem_Permutation key Hnd Hperm) in Hv.
    rewrite Hv in Hv'. injection Hv' as <-. apply same_content_refl.
Qed.

Lemma same_content_eq_str (json json' : JSON) (literal : string) :
  same_content json json' -> eq_str json literal = eq_str json' literal.
Proof. intros Hsame. destruct Hsame; reflexivity. Qed.

Lemma same_content_lookupByName {C : Type} (lookup : string -> option C)
  (name name' : JSON) :
  same_content name name' ->
  outcome (lookupByName lookup name) = outcome (lookupByName lookup name').
Proof. intros Hsame. destruct Hsame; reflexivity. Qed.

Lemma outcome_bind {A B : Type} (r r' : result A) (k k' : A -> result B) :
  outcome r = outcome r' ->
  (forall a, outcome (k a) = outcome (k' a)) ->
  outcome (bind r k) = outcome (bind r' k').
Proof.
  destruct r as [a | ], r' as [a' | ]; simpl; try discriminate; try reflexivity.
  intros Heq Hk. injection Heq as <-. apply Hk.
Qed.

Section DecoderReads.
Context `{Schema}.

Lemma same_content_decodes (json : JSON) :
  forall json', same_content json json' ->
    outcome (expressionFromJSON json) = outcome (expressionFromJSON json')
    /\ outcome (decode_each json) = outcome (decode_each json').
Proof.
  induction json as [ | b | n | s | l IHl | d IHd ] using JSON_nested_ind;
    intros json' Hsame; inversion Hsame as [ | | | | ? l' Hl | ? d' Hnone Hsome ];
    subst; try (split; reflexivity).
  - split; [ reflexivity | ].
    unfold decode_each. simpl. clear Hsame.
    induction Hl as [ | j j' l l' Hj _ IH ]; [ reflexivity | ].
    inversion IHl as [ | ? ? IHj IHrest ]; subst.
    simpl. fold (for_each expressionFromJSON l) (for_each expressionFromJSON l').
    apply outcome_bind; [ apply IHj; exact Hj | ].
    intros e. apply outcome_bind; [ | reflexivity ].
    apply IH. exact IHrest.
  - split.
    + rewrite !expressionFromJSON_dispatch. simpl.
      pose proof (Hnone "type") as Htype. pose proof (Hsome "type") as Htype'.
      destruct (getitem d "type") as [t | ], (getitem d' "type") as [t' | ];
        try reflexivity;
        try (exfalso; destruct Htype as [H1 H2];
             first [ discriminate (H1 eq_refl) | discriminate (H2 eq_refl) ]).
      specialize (Htype' t t' eq_refl eq_refl).
      rewrite <- !(same_content_eq_str _ Htype').
      destruct (eq_str t "CompoundExpression");
        [ | destruct (eq_str t "MatchExpression");
            [ reflexivity
            | destruct (eq_str t "ExistsExpression");
              [ reflexivity
              | destruct (eq_str t "BooleanExpression");
                [ reflexivity | rewrite !raise_unknown_type_raises; reflexivity ] ] ] ].
      unfold compoundExpressionFromJSON, required.
      pose proof (Hnone "expressions") as He. pose proof (Hsome "expressions") as He'.
      destruct (getitem d "expressions") as [v | ] eqn:Hv,
               (getitem d' "expressions") as [v' | ];
        try reflexivity;
        try (exfalso; destruct He as [H1 H2];
             first [ discriminate (H1 eq_refl) | discriminate (H2 eq_refl) ]).
      specialize (He' v v' eq_refl eq_refl). simpl.
      pose proof (Hnone "operand") as Ho. pose proof (Hsome "operand") as Ho'.
      destruct (getitem d "operand") as [o | ], (getitem d' "operand") as [o' | ];
        try reflexivity;
        try (exfalso; destruct Ho as [H1 H2];
             first [ discriminate (H1 eq_refl) | discriminate (H2 eq_refl) ]).
      specialize (Ho' o o' eq_refl eq_refl). simpl.
      apply getitem_In in Hv. rewrite Forall_forall in IHd.
      apply outcome_bind; [ apply (IHd _ Hv); exact He' | ].
      intros es. apply outcome_bind; [ | reflexivity ].
      apply same_content_lookupByName. exact Ho'.
    + unfold decode_each. simpl.
      destruct d as [ | [k v] d ], d' as [ | [k' v'] d' ]; try reflexivity.
      * exfalso. destruct (Hnone k') as [H1 _]. specialize (H1 eq_refl).
        simpl in H1. rewrite String.eqb_refl in H1. discriminate.
      * exfalso. destruct (Hnone k) as [_ H2]. specialize (H2 eq_refl).
        simpl in H2. rewrite String.eqb_refl in H2. discriminate.
Qed.

(** X7. Two JSON values with the same content, which differ at most in the
    order in which their dicts list their bindings, decode alike: to the
    same expression, or both to an exception. *)
Theorem expressionFromJSON_same_content (json json' : JSON) :
  same_content json json' ->
  outcome (expressionFromJSON json) = outcome (expressionFromJSON json').
Proof. intros Hsame. apply same_content_decodes. exact Hsame. Qed.

(** X8. [expressionFromJSON] reads the keys type, expressions and operand
    of a dict and nothing else of it: two dicts that agree on the three
    decode alike, exceptions included. *)
Theorem expressionFromJSON_reads_three_keys (d d' : list (string * JSON)) :
  getitem d "type" = getitem d' "type" ->
  getitem d "expressions" = getitem d' "expressions" ->
  getitem d "operand" = getitem d' "operand" ->
  expressionFromJSON (JDict d) = expressionFromJSON (JDict d').
Proof.
  intros Ht He Ho. rewrite !expressionFromJSON_dispatch. simpl. rewrite <- Ht.
  destruct (getitem d "type") as [t | ]; [ | reflexivity ].
  destruct (eq_str t "CompoundExpression"); [ | reflexivity ].
  unfold compoundExpressionFromJSON, required. rewrite He, Ho. reflexivity.
Qed.

(** X9. A compound whose expressions array has an item that does not
    decode raises the exception of the first such item, whatever follows
    it in the array and whatever the operand is. *)
Theorem first_failing_child_is_reported (d : list (string * JSON))
  (before after : list JSON) (child operand_json : JSON)
  (decoded : list Expression) (e : Exception) :
  getitem d "type" = Some (JString "CompoundExpression") ->
  getitem d "expressions" = Some (JList (before ++ child :: after)%list) ->
  getitem d "operand" = Some operand_json ->
  Forall2 (fun j T => expressionFromJSON j = Ok T) before decoded ->
  expressionFromJSON child = Raise e ->
  expressionFromJSON (JDict d) = Raise e.
Proof.
  intros Ht He Ho Hbefore Hchild.
  rewrite (expressionFromJSON_compound d Ht).
  unfold compoundExpressionFromJSON, required, decode_each. rewrite He, Ho. simpl.
  assert (for_each expressionFromJSON (before ++ child :: after)%list = Raise e) as ->.
  { clear - Hbefore Hchild.
    induction Hbefore as [ | j T before decoded Hj _ IH ]; simpl.
    - rewrite Hchild. reflexivity.
    - rewrite Hj. simpl.
      fold (for_each expressionFromJSON (before ++ child :: after)%list).
      rewrite IH. reflexivity. }
  reflexivity.
Qed.

(** X10. A compound decodes to an expression exactly when its expressions
    array decodes item by item and its operand resolves; the expression is
    the compound of the decoded items, in the array's order. *)
Theorem compound_decodes_iff (d : list (string * JSON)) (l : list JSON)
  (operand_json : JSON) (T : Expression) :
  getitem d "type" = Some (JString "CompoundExpression") ->
  getitem d "expressions" = Some (JList l) ->
  getitem d "operand" = Some operand_json ->
  (expressionFromJSON (JDict d) = Ok T
   <-> exists expressions operand,
         Forall2 (fun j e => expressionFromJSON j = Ok e) l expressions
         /\ lookupByName Operand_lookupByName operand_json = Ok operand
         /\ T = CompoundExpression expressions operand).
Proof.
  intros Ht He Ho. rewrite (expressionFromJSON_compound d Ht).
  unfold compoundExpressionFromJSON, required, decode_each. rewrite He, Ho. simpl.
  split.
  - destruct (for_each expressionFromJSON l) as [es | ] eqn:Hes; simpl; [ | discriminate ].
    destruct (lookupByName Operand_lookupByName operand_json) as [op | ];
      simpl; [ | discriminate ].
    intros Heq. injection Heq as <-. exists es, op.
    split; [ apply for_each_Forall2; exact Hes | split; reflexivity ].
  - intros [es [op [Hes [Hop ->]]]].
    apply for_each_Forall2 in Hes. rewrite Hes. simpl. rewrite Hop. reflexivity.
Qed.

(** X11. The value under expressions need not be a list. An empty string
    or an empty dict stands for no children; a string or dict with items
    raises the TypeError of a child that is not a dict; null, a boolean or
    an integer raises the TypeError of a value that cannot be iterated. *)
Theorem compound_expressions_not_a_list (d : list (string * JSON))
  (v operand_json : JSON) :
  getitem d "type" = Some (JString "CompoundExpression") ->
  getitem d "expressions" = Some v ->
  getitem d "operand" = Some operand_json ->
  (forall l, v <> JList l) ->
  expressionFromJSON (JDict d)
  = match v with
    | JString EmptyString | JDict [] =>
        operand <- lookupByName Operand_lookupByName operand_json ;;
        Ok (CompoundExpression [] operand)
    | JString _ | JDict _ => Raise TypeError_must_be_dict
    | _ => Raise TypeError_not_iterable
    end.
Proof.
  intros Ht He Ho Hlist. rewrite (expressionFromJSON_compound d Ht).
  unfold compoundExpressionFromJSON, required, decode_each. rewrite He, Ho. simpl.
  destruct v as [ | b | n | s | l | d' ]; try reflexivity.
  - destruct s; reflexivity.
  - exfalso. apply (Hlist l). reflexivity.
  - destruct d'; reflexivity.
Qed.

End DecoderReads.

(** ** What the node decoders read of a dict *)

Section NodeDecoderReads.
Context `{Schema}.
Variable service : Service.

(** X12. The decoder of a match node reads the keys field, value, match
    and flags, those of an exists or boolean node the key field: dicts that
    agree on these keys decode alike, so other keys are ignored and, for a
    dict with distinct keys, the order of its items is irrelevant. *)
Theorem node_decoders_read_their_keys (d d' : list (string * JSON)) :
  (getitem d "field" = getitem d' "field" ->
   (getitem d "value" = getitem d' "value" ->
    getitem d "match" = getitem d' "match" ->
    getitem d "flags" = getitem d' "flags" ->
    matchExpressionFromJSON service (JDict d)
    = matchExpressionFromJSON service (JDict d'))
   /\ existsExpressionFromJSON service (JDict d)
      = existsExpressionFromJSON service (JDict d')
   /\ booleanExpressionFromJSON service (JDict d)
      = booleanExpressionFromJSON service (JDict d'))
  /\ (NoDup (map fst d) -> Permutation d d' ->
      matchExpressionFromJSON service (JDict d)
      = matchExpressionFromJSON service (JDict d')
      /\ existsExpressionFromJSON service (JDict d)
         = existsExpressionFromJSON service (JDict d')
      /\ booleanExpressionFromJSON service (JDict d)
         = booleanExpressionFromJSON service (JDict d')).
Proof.
  assert (forall d d' : list (string * JSON),
             getitem d "field" = getitem d' "field" ->
             (getitem d "value" = getitem d' "value" ->
              getitem d "match" = getitem d' "match" ->
              getitem d "flags" = getitem d' "flags" ->
              matchExpressionFromJSON service (JDict d)
              = matchExpressionFromJSON service (JDict d'))
             /\ existsExpressionFromJSON service (JDict d)
                = existsExpressionFromJSON service (JDict d')
             /\ booleanExpressionFromJSON service (JDict d)
                = booleanExpressionFromJSON service (JDict d')) as Hkeys.
  { clear d d'. intros d d' Hf. split; [ | split ].
    - intros Hv Hm Hfl.
      unfold matchExpressionFromJSON, required, get_default, get.
      rewrite Hf, Hv, Hm, Hfl. reflexivity.
    - unfold existsExpressionFromJSON, required. rewrite Hf. reflexivity.
    - unfold booleanExpressionFromJSON, required. rewrite Hf. reflexivity. }
  split; [ apply Hkeys | ].
  intros Hnd Hperm.
  destruct (Hkeys d d' (getitem_Permutation "field" Hnd Hperm)) as [Hm [He Hb]].
  split; [ | split; assumption ].
  apply Hm; apply getitem_Permutation; assumption.
Qed.

End NodeDecoderReads.

(** ** The text is printable ASCII *)

Lemma all_printable_app (s t : string) :
  all_printable (s ++ t) = all_printable s && all_printable t.
Proof.
  induction s as [ | c s IHs ]; simpl; [ reflexivity | ].
  rewrite IHs. apply andb_assoc.
Qed.

Lemma escape_char_printable (c : ascii) : all_printable (escape_char c) = true.
Proof. destruct c as [[] [] [] [] [] [] [] []]; reflexivity. Qed.

Lemma encode_basestring_ascii_printable (s : string) :
  all_printable (encode_basestring_ascii s) = true.
Proof.
  unfold encode_basestring_ascii. simpl. rewrite all_printable_app. simpl.
  rewrite andb_true_r.
  induction s as [ | c s IHs ]; simpl; [ reflexivity | ].
  rewrite all_printable_app, escape_char_printable. exact IHs.
Qed.

Lemma string_of_uint_printable (d : Decimal.uint) :
  all_printable (NilEmpty.string_of_uint d) = true.
Proof. induction d; simpl; assumption || reflexivity. Qed.

Lemma str_int_printable (n : Z) : all_printable (str_int n) = true.
Proof.
  unfold str_int. destruct (Z.to_int n) as [d | d]; simpl;
    destruct d; try reflexivity; apply string_of_uint_printable.
Qed.

Lemma concat_printable (sep : string) (items : list string) :
  all_printable sep = true ->
  Forall (fun item => all_printable item = true) items ->
  all_printable (String.concat sep items) = true.
Proof.
  intros Hsep Hall. induction Hall as [ | x xs Hx Hxs IH ]; [ reflexivity | ].
  destruct xs as [ | y ys ]; [ exact Hx | ].
  change (String.concat sep (x :: y :: ys))
    with (x ++ sep ++ String.concat sep (y :: ys)).
  rewrite !all_printable_app, Hx, Hsep, IH. reflexivity.
Qed.

(** X13. The text [to_json_text] produces consists of printable ASCII
    characters only, whatever characters the strings of the value hold. *)
Theorem to_json_text_printable_ascii (json : JSON) :
  all_printable (to_json_text json) = true.
Proof.
  unfold to_json_text.
  induction json as [ | b | n | s | l IHl | d IHd ] using JSON_nested_ind.
  - reflexivity.
  - destruct b; reflexivity.
  - apply str_int_printable.
  - apply encode_basestring_ascii_printable.
  - cbn [dumps]. rewrite !all_printable_app.
    rewrite concat_printable; [ reflexivity | reflexivity | ].
    apply Forall_map. exact IHl.
  - cbn [dumps]. rewrite !all_printable_app.
    rewrite concat_printable; [ reflexivity | reflexivity | ].
    apply Forall_map. apply Forall_forall. intros [k v] Hkv.
    rewrite Forall_forall in IHd. specialize (IHd _ Hkv). cbn [fst snd] in *.
    rewrite !all_printable_app, encode_basestring_ascii_printable, IHd. reflexivity.
Qed.

(** ** The shape of the encoding *)

(** X14. Every JSON value [expressionAsJSON] returns is a node of the wire
    format: a dict with distinct keys whose type is one of the four class
    names and whose other values are strings, or the list of the nodes of
    its children. *)
Theorem expressionAsJSON_returns_nodes `{Schema} (T : Expression) (json : JSON) :
  expressionAsJSON T = Ok json -> node_json json = true.
Proof.
  revert json.
  induction T as [ f v m fl | f | f | es op IHes | r ] using Expression_nested_ind;
    intros json; simpl; try discriminate;
    try (intros Heq; injection Heq as <-; reflexivity).
  unfold compoundExpressionAsJSON_with.
  destruct (for_each expressionAsJSON es) as [js | ] eqn:Hjs; simpl; [ | discriminate ].
  intros Heq. injection Heq as <-.
  apply for_each_Forall2 in Hjs.
  assert (forallb node_json js = true) as Hall.
  { induction Hjs as [ | e j es js He _ IH ]; [ reflexivity | ].
    inversion IHes as [ | ? ? IHe IHrest ]; subst. simpl.
    rewrite (IHe _ He), (IH IHrest). reflexivity. }
  cbn. rewrite Hall. reflexivity.
Qed.

(** ** Composite flags *)

Lemma split_app_separator_pieces (sep : ascii) (before after : string) :
  split sep (before ++ String sep after)
  = (split sep before ++ split sep after)%list.
Proof.
  induction before as [ | c before IH ]; simpl.
  - rewrite Ascii.eqb_refl. reflexivity.
  - destruct (Ascii.eqb c sep).
    + rewrite IH. reflexivity.
    + rewrite IH. pose proof (split_nonempty sep before) as Hne.
      destruct (split sep before) as [ | x xs ]; [ contradiction | reflexivity ].
Qed.

Lemma split_head_In (sep : ascii) (s : string) :
  s = EmptyString \/ (exists r, s = String sep r) -> In EmptyString (split sep s).
Proof.
  intros [-> | [r ->]]; simpl.
  - left. reflexivity.
  - rewrite Ascii.eqb_refl. left. reflexivity.
Qed.

Lemma concat_comma_empty (names : list string) :
  String.concat "," names = EmptyString ->
  names = [] \/ names = [ EmptyString ].
Proof.
  destruct names as [ | x [ | y names ] ]; simpl.
  - left. reflexivity.
  - intros ->. right. reflexivity.
  - destruct x; discriminate.
Qed.

Lemma find_none_iff {A : Type} (f : A -> bool) (l : list A) :
  find f l = None <-> forall x, In x l -> f x = false.
Proof.
  split; [ apply find_none | ].
  induction l as [ | a l IH ]; simpl; [ reflexivity | ].
  intros Hall. rewrite (Hall a (or_introl eq_refl)). apply IH.
  intros x Hx. apply Hall. right. exact Hx.
Qed.

Section CompositeFlags.
Context `{Schema}.

(** X15. A composite with an empty name, as left by a leading comma, a
    trailing comma or two commas in a row, raises when the empty name is
    not a flag's name. *)
Theorem composite_with_empty_name_raises (before after : string) :
  before = EmptyString \/ after = EmptyString
  \/ (exists rest, after = String "," rest) ->
  MatchFlags_lookupByName EmptyString = None ->
  raised (matchFlagsFromJSON (JString ("{" ++ before ++ "," ++ after ++ "}")))
  = true.
Proof.
  intros Hshape Hempty.
  change ("{" ++ before ++ "," ++ after ++ "}")
    with ("{" ++ (before ++ String "," (after ++ "}"))).
  replace (before ++ String "," (after ++ "}"))
    with ((before ++ String "," after) ++ "}")
    by (rewrite append_assoc; reflexivity).
  rewrite matchFlagsFromJSON_composite by (destruct before; discriminate).
  rewrite flags_of_names_raised. apply existsb_exists.
  exists EmptyString. split; [ | unfold unresolvable; rewrite Hempty; reflexivity ].
  rewrite split_app_separator_pieces. apply in_or_app.
  destruct Hshape as [-> | Hafter].
  - left. left. reflexivity.
  - right. apply split_head_In. exact Hafter.
Qed.

Hypothesis or_commutative : forall a b, MatchFlags_or a b = MatchFlags_or b a.
Hypothesis or_associative :
  forall a b c, MatchFlags_or a (MatchFlags_or b c) = MatchFlags_or (MatchFlags_or a b) c.

Lemma fold_left_or_Permutation (fs fs' : list MatchFlags) :
  Permutation fs fs' ->
  forall flags, fold_left MatchFlags_or fs flags = fold_left MatchFlags_or fs' flags.
Proof.
  induction 1 as [ | f fs fs' _ IH | f f' fs | fs fs' fs'' _ IH _ IH' ];
    intros flags; simpl.
  - reflexivity.
  - apply IH.
  - f_equal. rewrite <- !or_associative. f_equal. apply or_commutative.
  - rewrite IH. apply IH'.
Qed.

(** X16. When [|] on flags is commutative and associative, the flags a
    composite decodes to do not depend on the order of its names. *)
Theorem composite_flags_in_any_order (names names' : list string)
  (flags : MatchFlags) :
  Permutation names names' ->
  Forall (fun name => contains_char "," name = false) names ->
  String.concat "," names <> EmptyString ->
  matchFlagsFromJSON (JString ("{" ++ String.concat "," names ++ "}")) = Ok flags ->
  matchFlagsFromJSON (JString ("{" ++ String.concat "," names' ++ "}")) = Ok flags.
Proof.
  intros Hperm Hall Hne.
  assert (String.concat "," names' <> EmptyString) as Hne'.
  { intros Hempty. apply concat_comma_empty in Hempty. apply Hne.
    destruct Hempty as [-> | ->].
    - apply Permutation_sym, Permutation_nil in Hperm. subst. reflexivity.
    - apply Permutation_sym, Permutation_length_1_inv in Hperm. subst. reflexivity. }
  assert (Forall (fun name => contains_char "," name = false) names') as Hall'.
  { eapply Permutation_Forall; eassumption. }
  rewrite !matchFlagsFromJSON_composite by assumption.
  rewrite !split_concat;
    try assumption; try (intros ->; apply Hne'; reflexivity);
    try (intros ->; apply Hne; reflexivity).
  unfold flags_of_names.
  destruct (find unresolvable names) as [name | ] eqn:Hfind; [ discriminate | ].
  assert (find unresolvable names' = None) as ->.
  { apply find_none_iff. intros name Hin.
    apply (proj1 (find_none_iff unresolvable names) Hfind).
    eapply Permutation_in; [ apply Permutation_sym; exact Hperm | exact Hin ]. }
  intros Heq. injection Heq as <-. f_equal. symmetry.
  apply fold_left_or_Permutation. unfold resolved.
  apply Permutation_flat_map. exact Hperm.
Qed.

End CompositeFlags.

(** ** When the encoder raises *)

Lemma raised_for_each {A B : Type} (f : A -> result B) (l : list A) :
  raised (for_each f l) = existsb (fun a => raised (f a)) l.
Proof.
  induction l as [ | a l IH ]; simpl; [ reflexivity | ].
  destruct (f a) as [b | ]; simpl; [ | reflexivity ].
  fold (for_each f l). rewrite <- IH. destruct (for_each f l); reflexivity.
Qed.

(** X17. [expressionAsJSON] raises exactly on the trees that hold an object
    which is an instance of none of the four classes, at any depth. *)
Theorem expressionAsJSON_raises_iff_unknown `{Schema} (T : Expression) :
  raised (expressionAsJSON T) = negb (known T).
Proof.
  induction T as [ f v m fl | f | f | es op IHes | r ] using Expression_nested_ind;
    try reflexivity.
  simpl. unfold compoundExpressionAsJSON_with.
  transitivity (raised (for_each expressionAsJSON es)).
  { destruct (for_each expressionAsJSON es); reflexivity. }
  rewrite raised_for_each.
  induction IHes as [ | e es IHe _ IH ]; [ reflexivity | ].
  simpl. rewrite IHe, IH. destruct (known e); reflexivity.
Qed.

(** * The codec on the concrete directory *)

Import Directory.

Lemma node_decoders_invert_node_encoders_witness :
  matchExpressionFromJSON service
    (matchExpressionAsJSON shortNames "a, b: c" contains
       {| NOT := true; caseInsensitive := true |})
  = Ok short_name_match
  /\ existsExpressionFromJSON service (existsExpressionAsJSON shortNames)
     = Ok (ExistsExpression shortNames)
  /\ booleanExpressionFromJSON service (booleanExpressionAsJSON shortNames)
     = Ok (BooleanExpression shortNames).
Proof.
  apply (@node_decoders_invert_node_encoders schema service shortNames "a, b: c"
           contains {| NOT := true; caseInsensitive := true |});
    reflexivity.
Defined.

(** The compound tree of the specification's round-trip test encodes to the
    text given there (shown split at its double quotes). *)
Example uid_and_guid_text :
  expressionAsJSONText uid_and_guid
  = Ok (String.concat (String dquote EmptyString)
          [ "{"; "type"; ":"; "CompoundExpression"; ","; "operand"; ":"; "AND";
            ","; "expressions"; ":[{"; "type"; ":"; "ExistsExpression"; ",";
            "field"; ":"; "uid"; "},{"; "type"; ":"; "ExistsExpression"; ",";
            "field"; ":"; "guid"; "}]}" ]).
Proof. reflexivity. Qed.

(** Decoding its encoding raises: the first child is an exists node. *)
Example uid_and_guid_roundtrip :
  (json <- expressionAsJSON uid_and_guid ;; expressionFromJSON json)
  = Raise (TypeError_arguments "existsExpressionFromJSON" 2 1).
Proof. reflexivity. Qed.

Lemma roundtrip_raises_witness :
  well_formed uid_and_guid = true
  /\ exists json fname,
       expressionAsJSON uid_and_guid = Ok json
       /\ expressionFromJSON json = Raise (TypeError_arguments fname 2 1).
Proof.
  split; [ reflexivity | ].
  apply (@roundtrip_raises_on_well_formed_trees schema uid_and_guid). reflexivity.
Defined.

Lemma encoder_witness :
  forallb known [ uid_exists; short_name_match ] = true
  /\ exists js,
       Forall2 (fun e j => expressionAsJSON e = Ok j)
               [ uid_exists; short_name_match ] js
       /\ expressionAsJSON
            (CompoundExpression [ uid_exists; short_name_match ] OR)
          = Ok (JDict [ ("type", JString "CompoundExpression");
                        ("operand", JString "OR");
                        ("expressions", JList js) ]).
Proof.
  split; [ reflexivity | ].
  apply (proj1 (proj2 (proj2 (proj2
           (@expressionAsJSON_total_on_the_four_variants schema))))
           [ uid_exists; short_name_match ] OR).
  reflexivity.
Defined.

Lemma leaf_call_raises_witness :
  expressionFromJSON (existsExpressionAsJSON uid)
  = Raise (TypeError_arguments "existsExpressionFromJSON" 2 1)
  /\ forall e, expressionFromJSON (existsExpressionAsJSON uid) <> Ok e.
Proof.
  apply (@expressionFromJSON_leaf_call_raises schema
           [ ("type", JString "ExistsExpression"); ("field", JString "uid") ]
           "ExistsExpression" "existsExpressionFromJSON").
  - reflexivity.
  - right. left. reflexivity.
Defined.

Lemma rejects_witness :
  expressionFromJSON (JString "MatchExpression") = Raise TypeError_must_be_dict
  /\ expressionFromJSON (JDict [ ("field", JString "uid") ])
     = Raise (ValueError_must_have_key "expression" "type")
  /\ expressionFromJSON (JDict [ ("type", JString "Bogus") ])
     = Raise (NotImplementedError_unknown_type (JString "Bogus"))
  /\ expressionFromJSON
       (JDict [ ("type", JString (String "233" "cole")) ])
     = Raise (UnicodeEncodeError (String "233" "cole")).
Proof.
  destruct (@expressionFromJSON_rejects schema)
    as [Hdict [Hkey [Htype [Hunicode _]]]].
  split; [ | split; [ | split ] ].
  - apply Hdict. discriminate.
  - apply Hkey. reflexivity.
  - apply Htype; [ reflexivity | | reflexivity ].
    simpl. intros [Heq | [Heq | [Heq | [Heq | []]]]]; discriminate.
  - apply Hunicode; reflexivity.
Defined.

Lemma flags_grammar_witness :
  matchFlagsFromJSON (JString "{NOT,caseInsensitive}")
  = Ok (flags_or (flags_or flags_none {| NOT := true; caseInsensitive := false |})
                 {| NOT := false; caseInsensitive := true |})
  /\ matchFlagsFromJSON (JString "{NOT,B}")
     = Raise (ValueError_lookupByName (JString "B"))
  /\ matchFlagsFromJSON (JString "NOT")
     = Ok {| NOT := true; caseInsensitive := false |}
  /\ matchFlagsFromJSON (JString "{A,B")
     = Raise (ValueError_lookupByName (JString "{A,B")).
Proof.
  destruct (@matchFlagsFromJSON_grammar schema)
    as [_ [Hbraces [Hnames [_ [Hother Hopen]]]]].
  split; [ | split; [ | split ] ].
  - refine (Hnames [ "NOT"; "caseInsensitive" ] _ _);
      [ repeat constructor | discriminate ].
  - refine (Hbraces "{NOT,B}" _ _ _); [ discriminate | reflexivity | reflexivity ].
  - refine (Hother "NOT" _). reflexivity.
  - exact Hopen.
Defined.

Lemma missing_key_witness :
  matchExpressionFromJSON service
    (JDict [ ("type", JString "MatchExpression"); ("value", JString "x") ])
  = Raise (ValueError_must_have_key "match expression" "field")
  /\ matchExpressionFromJSON service
       (JDict [ ("type", JString "MatchExpression"); ("field", JString "uid") ])
     = Raise (ValueError_must_have_key "match expression" "value")
  /\ expressionFromJSON (JDict [ ("type", JString "CompoundExpression") ])
     = Raise (ValueError_must_have_key "compound expression" "expressions")
  /\ expressionFromJSON
       (JDict [ ("type", JString "CompoundExpression");
                ("expressions", JList [ JInt 1 ]) ])
     = Raise (ValueError_must_have_key "compound expression" "operand").
Proof.
  destruct (@first_missing_key_is_reported schema service)
    as [Hfield [Hvalue [_ [_ [Hexpressions [Hoperand [Hcompound _]]]]]]].
  split; [ | split; [ | split ] ].
  - apply Hfield. reflexivity.
  - apply (Hvalue _ (JString "uid")); reflexivity.
  - rewrite Hcompound by reflexivity. apply Hexpressions. reflexivity.
  - rewrite Hcompound by reflexivity.
    apply (Hoperand _ (JList [ JInt 1 ])); reflexivity.
Defined.

Lemma defaults_witness :
  matchExpressionFromJSON service
    (JDict [ ("type", JString "MatchExpression");
             ("field", JString "uid"); ("value", JString "x") ])
  = Ok (MatchExpression uid "x" equals flags_none).
Proof.
  apply (proj1 (proj2 (proj2
           (@matchExpressionFromJSON_defaults schema service
              [ ("type", JString "MatchExpression");
                ("field", JString "uid"); ("value", JString "x") ])))
           (JString "uid") uid (JString "x") equals);
    reflexivity.
Defined.

Lemma match_value_is_not_decoded_witness :
  expressionFromJSON
    (JDict [ ("type", JString "MatchExpression"); ("field", JString "uid");
             ("value", JInt 5) ])
  = Raise (TypeError_arguments "matchExpressionFromJSON" 2 1).
Proof.
  apply (@match_value_is_not_decoded schema
           [ ("type", JString "MatchExpression"); ("field", JString "uid");
             ("value", JInt 5) ]).
  reflexivity.
Defined.

Lemma stringifies_value_witness :
  matchExpressionFromJSON service
    (JDict [ ("type", JString "MatchExpression"); ("field", JString "uid");
             ("value", JInt 5); ("match", JString "contains") ])
  = Ok (MatchExpression uid "5" contains flags_none)
  /\ matchExpressionFromJSON service
       (JDict [ ("type", JString "MatchExpression"); ("field", JString "uid");
                ("value", Samples.mixed_list) ])
     = Ok (MatchExpression uid
             ("[5, u" ++ String dquote ("it's" ++ String dquote
                (", u'x', None, True, u'"
                 ++ String backslash ("n" ++ String backslash ("xe9"
                 ++ String backslash (String backslash (String backslash ("x7f"
                 ++ String backslash "t', {u'k': 9223372036854775808L}]"))))))))
             equals flags_none).
Proof.
  split.
  - apply (@matchExpressionFromJSON_stringifies_value schema service
             [ ("type", JString "MatchExpression"); ("field", JString "uid");
               ("value", JInt 5); ("match", JString "contains") ]
             (JString "uid") (JInt 5) uid contains flags_none);
      reflexivity.
  - apply (@matchExpressionFromJSON_stringifies_value schema service
             [ ("type", JString "MatchExpression"); ("field", JString "uid");
               ("value", Samples.mixed_list) ]
             (JString "uid") Samples.mixed_list uid equals flags_none);
      reflexivity.
Defined.

Example stringified_values :
  map unicode [ JInt 5; JInt (-12); JInt 0; JBool true; JBool false; JNull;
                JString "x"; JList [ JInt 1; JString "x" ] ]
  = [ "5"; "-12"; "0"; "True"; "False"; "None"; "x"; "[1, u'x']" ].
Proof. reflexivity. Qed.

Lemma compact_witness :
  exists text, expressionAsJSONText short_name_match = Ok text
               /\ compact text = true.
Proof.
  destruct (@expressionAsJSONText_compact schema short_name_match)
    as [Htotal Hcompact].
  destruct (Htotal eq_refl) as [text Htext].
  exists text. split; [ exact Htext | apply Hcompact; exact Htext ].
Defined.

(** With the default separators of [json.dumps] the text is not compact;
    the spaces of a string literal do not count. *)
Example default_separators_not_compact :
  compact (dumps ", " ": " (existsExpressionAsJSON uid)) = false
  /\ compact (dumps "," ": " (existsExpressionAsJSON uid)) = false
  /\ compact (dumps ", " ":" (existsExpressionAsJSON uid)) = false
  /\ compact (dumps "," ":" (JString "a, b: c")) = true.
Proof. repeat split; reflexivity. Qed.

Lemma returns_compounds_only_witness :
  expressionFromJSON
    (JDict [ ("type", JString "CompoundExpression"); ("operand", JString "OR");
             ("expressions",
              JList [ JDict [ ("type", JString "CompoundExpression");
                              ("operand", JString "AND");
                              ("expressions", JString EmptyString) ] ]) ])
  = Ok (CompoundExpression [ CompoundExpression [] AND ] OR)
  /\ leaves (CompoundExpression [ CompoundExpression [] AND ] OR) = 0.
Proof.
  split; [ reflexivity | ].
  apply (@expressionFromJSON_returns_compounds_only schema
           (JDict [ ("type", JString "CompoundExpression"); ("operand", JString "OR");
                    ("expressions",
                     JList [ JDict [ ("type", JString "CompoundExpression");
                                     ("operand", JString "AND");
                                     ("expressions", JString EmptyString) ] ]) ])).
  reflexivity.
Defined.

Lemma no_children_witness :
  expressionFromJSON
    (JDict [ ("type", JString "CompoundExpression");
             ("operand", JString "AND"); ("expressions", JList []) ])
  = Ok (CompoundExpression [] AND).
Proof.
  apply (@compound_decoder_accepts_no_children schema
           [ ("type", JString "CompoundExpression");
             ("operand", JString "AND"); ("expressions", JList []) ]
           "AND" AND);
    reflexivity.
Defined.

(** ** Further runs on the concrete directory *)

Import Samples.

Lemma operand_names_resolve_here :
  forall op : operand, operand_lookup (operand_name op) = Some op.
Proof. intros []; reflexivity. Defined.

Lemma roundtrip_iff_compound_only_witness :
  known or_of_empty_and = true
  /\ ((json <- expressionAsJSON or_of_empty_and ;; expressionFromJSON json)
        = Ok or_of_empty_and
      <-> leaves or_of_empty_and = 0).
Proof.
  split; [ reflexivity | ].
  apply (@roundtrip_iff_compound_only schema operand_names_resolve_here
           or_of_empty_and).
  reflexivity.
Defined.

Lemma decoded_expression_roundtrips_witness :
  expressionFromJSON (JDict or_of_empty_and_commented) = Ok or_of_empty_and
  /\ exists json',
       expressionAsJSON or_of_empty_and = Ok json'
       /\ expressionFromJSON json' = Ok or_of_empty_and.
Proof.
  split; [ reflexivity | ].
  apply (@decoded_expression_roundtrips schema operand_names_resolve_here
           (JDict or_of_empty_and_commented) or_of_empty_and).
  reflexivity.
Defined.

Lemma expressionAsJSON_injective_witness :
  exists json,
    expressionAsJSON uid_and_guid = Ok json
    /\ expressionAsJSON (CompoundExpression [ uid_exists; guid_exists ] AND) = Ok json
    /\ uid_and_guid = CompoundExpression [ uid_exists; guid_exists ] AND.
Proof.
  eexists. split; [ reflexivity | ]. split; [ reflexivity | ].
  eapply (@expressionAsJSON_injective schema).
  - intros [] []; simpl; intros Heq; reflexivity || discriminate.
  - intros [] []; simpl; intros Heq; reflexivity || discriminate.
  - intros [[] []] [[] []]; simpl; intros Heq; reflexivity || discriminate.
  - intros [] []; simpl; intros Heq; reflexivity || discriminate.
  - reflexivity.
  - reflexivity.
Defined.

Lemma same_content_witness :
  same_content (JDict or_of_empty_and_items) (JDict or_of_empty_and_reordered)
  /\ outcome (expressionFromJSON (JDict or_of_empty_and_items))
     = outcome (expressionFromJSON (JDict or_of_empty_and_reordered)).
Proof.
  assert (same_content (JDict or_of_empty_and_items)
                       (JDict or_of_empty_and_reordered)) as Hsame.
  { apply reordered_same_content.
    - repeat constructor; simpl; intuition discriminate.
    - apply perm_swap. }
  split; [ exact Hsame | ].
  apply (@expressionFromJSON_same_content schema _ _ Hsame).
Defined.

Lemma reads_three_keys_witness :
  expressionFromJSON (JDict or_of_empty_and_commented)
  = expressionFromJSON (JDict or_of_empty_and_items).
Proof.
  apply (@expressionFromJSON_reads_three_keys schema); reflexivity.
Defined.

Lemma first_failing_child_witness :
  expressionFromJSON (JDict second_child_fails)
  = Raise (TypeError_arguments "existsExpressionFromJSON" 2 1).
Proof.
  apply (@first_failing_child_is_reported schema second_child_fails
           [ empty_and_json ] [ JNull ] (@existsExpressionAsJSON schema uid) (JInt 0)
           [ @CompoundExpression schema [] AND ]).
  - reflexivity.
  - reflexivity.
  - reflexivity.
  - constructor; [ reflexivity | constructor ].
  - reflexivity.
Defined.

Lemma compound_decodes_iff_witness :
  expressionFromJSON or_of_empty_and_json = Ok or_of_empty_and
  <-> exists expressions operand,
        Forall2 (fun j e => expressionFromJSON j = Ok e) [ empty_and_json ] expressions
        /\ lookupByName Operand_lookupByName (JString "OR") = Ok operand
        /\ or_of_empty_and = CompoundExpression expressions operand.
Proof.
  apply (@compound_decodes_iff schema or_of_empty_and_items [ empty_and_json ]
           (JString "OR") or_of_empty_and);
    reflexivity.
Defined.

Lemma expressions_not_a_list_witness :
  expressionFromJSON
    (JDict [ ("type", JString "CompoundExpression"); ("operand", JString "AND");
             ("expressions", JString EmptyString) ])
  = Ok (CompoundExpression [] AND).
Proof.
  apply (@compound_expressions_not_a_list schema
           [ ("type", JString "CompoundExpression"); ("operand", JString "AND");
             ("expressions", JString EmptyString) ]
           (JString EmptyString) (JString "AND")).
  - reflexivity.
  - reflexivity.
  - reflexivity.
  - discriminate.
Defined.

Lemma node_decoders_read_their_keys_witness :
  matchExpressionFromJSON service (JDict match_items)
  = matchExpressionFromJSON service (JDict match_items_reordered).
Proof.
  apply (proj2 (@node_decoders_read_their_keys schema service
                  match_items match_items_reordered)).
  - repeat constructor; simpl; intuition discriminate.
  - unfold match_items, match_items_reordered.
    apply Permutation_rev.
Defined.

Lemma returns_nodes_witness :
  expressionAsJSON short_name_match
  = Ok (matchExpressionAsJSON shortNames "a, b: c" contains
          {| NOT := true; caseInsensitive := true |})
  /\ node_json (matchExpressionAsJSON shortNames "a, b: c" contains
                  {| NOT := true; caseInsensitive := true |}) = true.
Proof.
  split; [ reflexivity | ].
  apply (@expressionAsJSON_returns_nodes schema short_name_match). reflexivity.
Defined.

Lemma empty_name_witness :
  raised (matchFlagsFromJSON (JString "{NOT,}")) = true
  /\ raised (matchFlagsFromJSON (JString "{,NOT}")) = true
  /\ raised (matchFlagsFromJSON (JString "{NOT,,caseInsensitive}")) = true.
Proof.
  split; [ | split ].
  - apply (@composite_with_empty_name_raises schema "NOT" EmptyString);
      [ right; left; reflexivity | reflexivity ].
  - apply (@composite_with_empty_name_raises schema EmptyString "NOT");
      [ left; reflexivity | reflexivity ].
  - apply (@composite_with_empty_name_raises schema "NOT" ",caseInsensitive");
      [ right; right; eexists; reflexivity | reflexivity ].
Defined.

Lemma any_order_witness :
  matchFlagsFromJSON (JString "{NOT,caseInsensitive}")
  = Ok {| NOT := true; caseInsensitive := true |}
  /\ matchFlagsFromJSON (JString "{caseInsensitive,NOT}")
     = Ok {| NOT := true; caseInsensitive := true |}.
Proof.
  split; [ reflexivity | ].
  apply (@composite_flags_in_any_order schema
           (fun a b => match a, b with
                       | {| NOT := n; caseInsensitive := c |},
                         {| NOT := n'; caseInsensitive := c' |} =>
                           f_equal2 Build_flags (orb_comm n n') (orb_comm c c')
                       end)
           (fun a b c => match a, b, c with
                         | {| NOT := n; caseInsensitive := i |},
                           {| NOT := n'; caseInsensitive := i' |},
                           {| NOT := n''; caseInsensitive := i'' |} =>
                             f_equal2 Build_flags (orb_assoc n n' n'')
                                      (orb_assoc i i' i'')
                         end)
           [ "NOT"; "caseInsensitive" ] [ "caseInsensitive"; "NOT" ]).
  - apply perm_swap.
  - repeat constructor.
  - discriminate.
  - reflexivity.
Defined.
